(** * City A.M. daily extractor: a model of [cityam_blog_extractor.py]

    The script fetches an RSS feed, keeps the first few entries, cleans
    their text, renders a Markdown post and writes it with an index file.
    This development embeds the script's functions and proves the
    properties its specification states about them.

    Python text ([str]) is a sequence of Unicode code points; it is
    modelled as a list of code points, so that [len], slicing and
    concatenation are the list operations. *)

From Stdlib Require Import ZArith NArith Lia Ascii String DecimalString.
From stdpp Require Import base option list gmap.
From Equations Require Import Equations.

Local Open Scope N_scope.

(** ** Text *)

Abbreviation char := N.
Abbreviation str := (list N).

(** An ASCII literal of the script as a [str]. *)
Definition lit (s : string) : str :=
  (fun a => N_of_ascii a) <$> list_ascii_of_string s.

Definition LT_SIGN : char := 60.   (* '<' *)
Definition GT_SIGN : char := 62.   (* '>' *)
Definition AMP : char := 38.       (* '&' *)
Definition HASH : char := 35.      (* '#' *)
Definition SEMI : char := 59.      (* ';' *)
Definition NEWLINE : char := 10.   (* '\n' *)
Definition SPACE : char := 32.     (* ' ' *)

(** [str(n)] / [f"{n}"] for a non-negative integer. *)
Definition str_of_nat (n : nat) : str :=
  lit (NilZero.string_of_uint (Nat.to_uint n)).

Definition str_of_Z (z : Z) : str :=
  if (z <? 0)%Z then lit "-" ++ str_of_nat (Z.to_nat (- z))
  else str_of_nat (Z.to_nat z).

(** [sep.join(parts)]. *)
Fixpoint join (sep : str) (parts : list str) : str :=
  match parts with
  | [] => []
  | [p] => p
  | p :: rest => p ++ sep ++ join sep rest
  end.

(** ** Regular-expression substitution

    [re.sub(pattern, repl, s)] for a pattern that never matches the empty
    string: scan left to right; where the pattern matches at the current
    position, emit the replacement for the matched text and resume after
    the match; otherwise copy one character.  [m s] is the length of the
    match that starts at the head of [s], if there is one. *)

Equations? re_sub (m : str -> option nat) (repl : str -> str) (s : str) : str
  by wf (length s) lt :=
  re_sub m repl [] := [];
  re_sub m repl (c :: r) with m (c :: r) := {
    | Some (S n) => repl (take (S n) (c :: r)) ++ re_sub m repl (drop n r);
    | _ => c :: re_sub m repl r }.
Proof. all: simpl; try rewrite length_drop; lia. Qed.

(** *** The tag pattern [<.*?>]

    [.] matches every character except a newline and [*?] is lazy, so a
    match starts at a ['<'] and ends at the first ['>'] after it, provided
    no newline comes in between. *)

(** Number of characters up to and including the first ['>'] of [r], when
    no newline precedes it. *)
Fixpoint tag_close (r : str) : option nat :=
  match r with
  | [] => None
  | c :: r' =>
      if c =? GT_SIGN then Some 1%nat
      else if c =? NEWLINE then None
      else S <$> tag_close r'
  end.

Definition match_tag (s : str) : option nat :=
  match s with
  | c :: r => if c =? LT_SIGN then S <$> tag_close r else None
  | [] => None
  end.

(** [re.sub(re.compile('<.*?>'), '', text)] *)
Definition strip_tags (text : str) : str := re_sub match_tag (fun _ => []) text.

(** ** [str.split()] and whitespace

    The characters Python treats as whitespace ([str.isspace]). *)
Definition is_space (c : char) : bool :=
  ((9 <=? c) && (c <=? 13)) || ((28 <=? c) && (c <=? 32))
  || (c =? 133) || (c =? 160) || (c =? 5760)
  || ((8192 <=? c) && (c <=? 8202))
  || (c =? 8232) || (c =? 8233) || (c =? 8239) || (c =? 8287) || (c =? 12288).

(** [cur] is the word being read. *)
Fixpoint split_from (cur : str) (s : str) : list str :=
  match s with
  | [] => match cur with [] => [] | _ => [cur] end
  | c :: r =>
      if is_space c
      then match cur with [] => split_from [] r | _ => cur :: split_from [] r end
      else split_from (cur ++ [c]) r
  end.

(** [text.split()] *)
Definition split (text : str) : list str := split_from [] text.

(** ** [html.unescape]

    The standard library's function, transcribed with its two small
    tables.  The table of named references ([html.entities.html5], some
    2200 entries) is a parameter of the development. *)

Definition is_digit (c : char) : bool := (48 <=? c) && (c <=? 57).
Definition is_hex (c : char) : bool :=
  is_digit c || ((97 <=? c) && (c <=? 102)) || ((65 <=? c) && (c <=? 70)).
(** The class [[^\t\n\f <&#;]]. *)
Definition is_name_char (c : char) : bool :=
  negb ((c =? 9) || (c =? 10) || (c =? 12) || (c =? 32)
        || (c =? 60) || (c =? 38) || (c =? 35) || (c =? 59)).

(** Length of the longest prefix of [s] whose characters satisfy [p]. *)
Fixpoint run (p : char -> bool) (s : str) : nat :=
  match s with
  | c :: r => if p c then S (run p r) else 0%nat
  | [] => 0%nat
  end.

(** The optional [;?] after [k] characters of [s]. *)
Definition semi_after (k : nat) (s : str) : nat :=
  match drop k s with
  | c :: _ => if c =? SEMI then S k else k
  | [] => k
  end.

(** Length of group 1 of
    [&(#[0-9]+;?|#[xX][0-9a-fA-F]+;?|[^\t\n\f <&#;]{1,32};?)]
    on the text [r] that follows the ['&']. *)
Definition charref_group (r : str) : option nat :=
  match r with
  | [] => None
  | c1 :: r1 =>
      if c1 =? HASH then
        match run is_digit r1 with
        | S d => Some (S (semi_after (S d) r1))
        | O =>
            match r1 with
            | x :: r2 =>
                if (x =? 120) || (x =? 88) then
                  match run is_hex r2 with
                  | S h => Some (S (S (semi_after (S h) r2)))
                  | O => None
                  end
                else None
            | [] => None
            end
        end
      else
        match Nat.min 32 (run is_name_char r) with
        | S k => Some (semi_after (S k) r)
        | O => None
        end
  end.

Definition match_charref (s : str) : option nat :=
  match s with
  | c :: r => if c =? AMP then S <$> charref_group r else None
  | [] => None
  end.

(** [s.rstrip(';')] *)
Fixpoint rstrip_semi (s : str) : str :=
  match s with
  | [] => []
  | a :: r =>
      match rstrip_semi r with
      | [] => if a =? SEMI then [] else [a]
      | r' => a :: r'
      end
  end.

Definition digit_val (c : char) : N :=
  if is_digit c then c - 48
  else if (97 <=? c) && (c <=? 102) then c - 87
  else c - 55.

(** [int(s, base)] on a string of digits of that base. *)
Definition int_of (base : N) (s : str) : N :=
  fold_left (fun acc c => acc * base + digit_val c) s 0.

Definition invalid_charrefs (num : N) : option str :=
  match num with
  | 0 => Some [65533] | 13 => Some [13] | 128 => Some [8364]
  | 129 => Some [129] | 130 => Some [8218] | 131 => Some [402]
  | 132 => Some [8222] | 133 => Some [8230] | 134 => Some [8224]
  | 135 => Some [8225] | 136 => Some [710] | 137 => Some [8240]
  | 138 => Some [352] | 139 => Some [8249] | 140 => Some [338]
  | 141 => Some [141] | 142 => Some [381] | 143 => Some [143]
  | 144 => Some [144] | 145 => Some [8216] | 146 => Some [8217]
  | 147 => Some [8220] | 148 => Some [8221] | 149 => Some [8226]
  | 150 => Some [8211] | 151 => Some [8212] | 152 => Some [732]
  | 153 => Some [8482] | 154 => Some [353] | 155 => Some [8250]
  | 156 => Some [339] | 157 => Some [157] | 158 => Some [382]
  | 159 => Some [376]
  | _ => None
  end.

Definition invalid_codepoints (num : N) : bool :=
  ((1 <=? num) && (num <=? 8)) || ((14 <=? num) && (num <=? 31))
  || ((127 <=? num) && (num <=? 159))
  || ((64976 <=? num) && (num <=? 65007))
  || (num =? 11)
  || ((65534 <=? num mod 65536) && (num <=? 1114111)).

Section Unescape.
Variable html5 : gmap str str.

(** The loop [for x in range(len(s)-1, 1, -1)] of the named branch:
    the longest proper prefix of at least two characters that is a
    known name. *)
Fixpoint named_prefix (s : str) (x : nat) : option str :=
  match x with
  | O | S O => None
  | S x' =>
      match html5 !! take x s with
      | Some v => Some (v ++ drop x s)
      | None => named_prefix s x'
      end
  end.

(** [_replace_charref], on group 1 of the match. *)
Definition replace_charref (s : str) : str :=
  match s with
  | c0 :: s1 =>
      if c0 =? HASH then
        let num :=
          match s1 with
          | x :: s2 =>
              if (x =? 120) || (x =? 88) then int_of 16 (rstrip_semi s2)
              else int_of 10 (rstrip_semi s1)
          | [] => 0
          end in
        match invalid_charrefs num with
        | Some v => v
        | None =>
            if ((55296 <=? num) && (num <=? 57343)) || (1114111 <? num)
            then [65533]
            else if invalid_codepoints num then []
            else [num]
        end
      else
        match html5 !! s with
        | Some v => v
        | None =>
            match named_prefix s (length s - 1) with
            | Some v => v
            | None => AMP :: s
            end
        end
  | [] => []
  end.

(** [html.unescape(s)] *)
Definition unescape (s : str) : str :=
  if bool_decide (AMP ∈ s)
  then re_sub match_charref (fun g => replace_charref (drop 1 g)) s
  else s.

(** ** [CityAMExtractor.clean_html] *)
Definition clean_html (text : str) : str :=
  match text with
  | [] => []
  | _ =>
      let text := strip_tags text in
      let text := unescape text in
      join (lit " ") (split text)
  end.

End Unescape.

(** An excerpt of [html.entities.html5], enough for the examples. *)
Definition html5_excerpt : gmap str str :=
  list_to_map
    [ (lit "amp", [38]); (lit "amp;", [38]); (lit "lt", [60]); (lit "lt;", [60]);
      (lit "gt", [62]); (lit "gt;", [62]); (lit "quot", [34]); (lit "quot;", [34]);
      (lit "apos;", [39]); (lit "nbsp", [160]); (lit "nbsp;", [160]);
      (lit "pound", [163]); (lit "pound;", [163]); (lit "not", [172]);
      (lit "not;", [172]); (lit "notin;", [8713]); (lit "rsquo;", [8217]) ].

(** ** Feed data

    An entry as [feedparser] delivers it.  The script reads it only
    through [entry.get(key, default)]: a field is [None] when the key is
    absent. *)

Record Tag := { term : str }.

Record RawEntry := {
  entry_title : option str;
  entry_summary : option str;
  entry_description : option str;
  entry_link : option str;
  entry_published : option str;
  entry_author : option str;
  entry_tags : option (list Tag)
}.

(** The dictionary built for each entry. *)
Record Article := {
  title : str;
  link : str;
  summary : str;
  published : str;
  author : str;
  categories : list str
}.

(** The dictionary returned by [extract_articles]. *)
Record FeedResult := {
  feed_title : str;
  feed_description : str;
  last_updated : str;
  articles : list Article
}.

(** ** Exceptions and effects *)

Inductive exn :=
  | ValueError (msg : str)
  | OSError (msg : str)
  | FeedError (msg : str)      (* any other [Exception] of a library *)
  | SystemExit (code : Z).

(** [isinstance(e, Exception)]: [SystemExit] derives from [BaseException]
    only. *)
Definition is_Exception (e : exn) : bool :=
  match e with SystemExit _ => false | _ => true end.

(** [str(e)] *)
Definition exn_str (e : exn) : str :=
  match e with
  | ValueError msg | OSError msg | FeedError msg => msg
  | SystemExit code => str_of_Z code
  end.

(** The result of [feedparser.parse]. *)
Record FeedMeta := {
  meta_title : option str;
  meta_description : option str;
  meta_updated : option str
}.

Record ParsedFeed := {
  bozo : option exn;            (* [bozo_exception], when [bozo] is set *)
  entries : list RawEntry;
  feed : FeedMeta
}.

Inductive result (A : Type) :=
  | Return (a : A)
  | Raise (e : exn).
Arguments Return {A} a.
Arguments Raise {A} e.

Record datetime := { year : nat; month : nat; day : nat; hour : nat; minute : nat }.

(** What the script observes of its surroundings.  The clock is read
    several times in a run; it is taken not to advance in between. *)
Record Env := {
  html5 : gmap str str;                       (* [html.entities.html5] *)
  now : datetime;                             (* [datetime.now()] *)
  feedparser_parse : str -> result ParsedFeed;  (* the network and the parser *)
  open_error : str -> option exn              (* [open(path, 'w')] refused *)
}.

(** What the script changes. *)
Record World := {
  files : gmap str str;       (* path to content *)
  dirs : gset str;
  stdout : list str;          (* printed lines *)
  requests : list str         (* URLs handed to [feedparser.parse] *)
}.

Definition M (A : Type) : Type := World -> result A * World.

#[export] Instance M_ret : MRet M := fun A a w => (Return a, w).
#[export] Instance M_bind : MBind M := fun A B k c w =>
  match c w with
  | (Return a, w') => k a w'
  | (Raise e, w') => (Raise e, w')
  end.

Definition raise {A} (e : exn) : M A := fun w => (Raise e, w).

(** [try: body except Exception as e: handler e] *)
Definition try_except {A} (body : M A) (handler : exn -> M A) : M A := fun w =>
  match body w with
  | (Raise e, w') => if is_Exception e then handler e w' else (Raise e, w')
  | r => r
  end.

Definition print (line : str) : M unit := fun w =>
  (Return tt,
   {| files := files w; dirs := dirs w; stdout := stdout w ++ [line];
      requests := requests w |}).

(** ** The article loop of [extract_articles] *)

(** [l[:n]] *)
Definition slice_to {A} (l : list A) (n : Z) : list A :=
  if (0 <=? n)%Z then take (Z.to_nat n) l
  else take (length l - Z.to_nat (- n)) l.

(** [if len(summary) > 300: summary = summary[:297] + '...'] *)
Definition limit_summary (summary : str) : str :=
  if (300 <? length summary)%nat then take 297 summary ++ lit "..." else summary.

Section Extractor.
Variable env : Env.

Definition raw_summary (entry : RawEntry) : str :=
  default (default [] (entry_description entry)) (entry_summary entry).

(** One iteration of the loop: the [article] dictionary of [entry]. *)
Definition build_article (entry : RawEntry) : Article :=
  let title := clean_html (html5 env) (default (lit "No title") (entry_title entry)) in
  let summary := clean_html (html5 env) (raw_summary entry) in
  let summary := limit_summary summary in
  {| title := title;
     link := default [] (entry_link entry);
     summary := summary;
     published := default [] (entry_published entry);
     author := default (lit "City A.M.") (entry_author entry);
     categories := term <$> default [] (entry_tags entry) |}.

(** [articles = []; for entry in feed.entries[:max_articles]: ...
    articles.append(article)] *)
Definition select_articles (feed_entries : list RawEntry) (max_articles : Z)
  : list Article :=
  fold_left (fun articles entry => articles ++ [build_article entry])
            (slice_to feed_entries max_articles) [].

(** ** [CityAMExtractor] *)

Record CityAMExtractor := {
  rss_feeds : gmap str str;
  base_url : str;
  output_dir : str
}.

Definition parse (url : str) : M ParsedFeed := fun w =>
  (feedparser_parse env url,
   {| files := files w; dirs := dirs w; stdout := stdout w;
      requests := requests w ++ [url] |}).

(** [CityAMExtractor.extract_articles] *)
Definition extract_articles (self : CityAMExtractor) (feed_name : str)
    (max_articles : Z) : M (option FeedResult) :=
  match rss_feeds self !! feed_name with
  | None | Some [] => raise (ValueError (lit "Unknown feed: " ++ feed_name))
  | Some feed_url =>
      try_except
        (print (lit "Fetching content from: " ++ feed_url);;
         parsed ← parse feed_url;
         match bozo parsed with
         | Some e => print (lit "Warning: Feed parsing issues - " ++ exn_str e)
         | None => mret tt
         end;;
         match entries parsed with
         | [] => print (lit "No articles found in feed");; mret None
         | _ =>
             let articles := select_articles (entries parsed) max_articles in
             print (lit "Successfully extracted " ++ str_of_nat (length articles)
                    ++ lit " articles");;
             mret (Some
               {| feed_title :=
                    default (lit "City A.M. News") (meta_title (feed parsed));
                  feed_description := default [] (meta_description (feed parsed));
                  last_updated := default [] (meta_updated (feed parsed));
                  articles := articles |})
         end)
        (fun e =>
           print (lit "Error extracting from feed " ++ feed_url ++ lit ": "
                  ++ exn_str e);;
           mret None)
  end.

End Extractor.

(** ** Dates and paths *)

(** [n] in decimal, zero-padded to [width] digits, as [%m], [%d], [%H] and
    [%M] print it, and [%Y] a year of up to four digits. *)
Definition zero_pad (width n : nat) : str :=
  let d := str_of_nat n in
  replicate (width - length d) 48 ++ d.

Definition month_name (m : nat) : str :=
  lit (match m with
       | 1%nat => "January" | 2%nat => "February" | 3%nat => "March"
       | 4%nat => "April" | 5%nat => "May" | 6%nat => "June"
       | 7%nat => "July" | 8%nat => "August" | 9%nat => "September"
       | 10%nat => "October" | 11%nat => "November" | _ => "December"
       end).

(** [strftime('%Y-%m-%d')] *)
Definition strftime_Ymd (d : datetime) : str :=
  zero_pad 4 (year d) ++ lit "-" ++ zero_pad 2 (month d) ++ lit "-"
  ++ zero_pad 2 (day d).

(** [strftime('%B %d, %Y')] *)
Definition strftime_BdY (d : datetime) : str :=
  month_name (month d) ++ lit " " ++ zero_pad 2 (day d) ++ lit ", "
  ++ zero_pad 4 (year d).

(** [strftime('%Y-%m-%d %H:%M UTC')] *)
Definition strftime_YmdHM_UTC (d : datetime) : str :=
  strftime_Ymd d ++ lit " " ++ zero_pad 2 (hour d) ++ lit ":"
  ++ zero_pad 2 (minute d) ++ lit " UTC".

Definition SLASH : char := 47.

(** [os.path.join(a, b)] (POSIX): an absolute [b] replaces [a]; otherwise
    [b] is appended, after a separator unless [a] is empty or ends in one. *)
Definition os_path_join (a b : str) : str :=
  if bool_decide (head b = Some SLASH) then b
  else if bool_decide (a = []) || bool_decide (last a = Some SLASH) then a ++ b
  else a ++ [SLASH] ++ b.

(** [os.path.basename(p)]: what follows the last ['/']. *)
Fixpoint os_path_basename (p : str) : str :=
  match p with
  | [] => []
  | c :: r =>
      if bool_decide (SLASH ∈ p) then os_path_basename r else p
  end.

(** [enumerate(l, start)] *)
Fixpoint enumerate {A} (start : nat) (l : list A) : list (nat * A) :=
  match l with
  | [] => []
  | x :: r => (start, x) :: enumerate (S start) r
  end.

(** ** Rendering and persistence *)

Section Pipeline.
Variable env : Env.

Definition post_header (today : str) : str :=
  lit "# Daily Business News Summary - " ++ today ++ lit "
*Curated from City A.M. Business News*

---

Good morning! Here's your daily roundup of the top business stories from City A.M., London's leading business newspaper.

".

(** [', '.join(article['categories']) if article['categories'] else
    'Business News'] *)
Definition categories_text (article : Article) : str :=
  match categories article with
  | [] => lit "Business News"
  | cs => join (lit ", ") cs
  end.

(** The text appended for the article numbered [i]. *)
Definition post_section (i : nat) (article : Article) : str :=
  lit "## " ++ str_of_nat i ++ lit ". " ++ title article ++ lit "

**Summary**: " ++ summary article ++ lit "

**Categories**: " ++ categories_text article ++ lit "

**[Read the full article at City A.M.](" ++ link article ++ lit ")**

---

".

Definition post_footer (self : CityAMExtractor) (blog_name author_name : str) : str :=
  lit "
## About This Summary

This daily summary is automatically curated from [City A.M.](" ++ base_url self
  ++ lit "), London's premier business newspaper. All original reporting and content rights belong to City A.M. 

*Summary compiled by " ++ author_name ++ lit " for " ++ blog_name
  ++ lit " | Original content " ++ [169] ++ lit " City A.M.*

**Want to stay updated?** 
- Visit [City A.M.](" ++ base_url self ++ lit ") for complete coverage
- Download their [free mobile app](https://www.cityam.com/apps/)
- Subscribe to their newsletters

---
*Disclaimer: This is a curated summary for informational purposes. Please visit the original articles for complete reporting and context.*

*Last updated: " ++ strftime_YmdHM_UTC (now env) ++ lit "*
".

Definition no_articles_message : str := lit "No articles available for summary.".

(** [CityAMExtractor.generate_blog_post] *)
Definition generate_blog_post (self : CityAMExtractor)
    (feed_data : option FeedResult) (blog_name author_name : str) : str :=
  match feed_data with
  | None => no_articles_message
  | Some data =>
      match articles data with
      | [] => no_articles_message
      | _ =>
          let today := strftime_BdY (now env) in
          let post := post_header today in
          let post :=
            fold_left (fun post '(i, article) => post ++ post_section i article)
                      (enumerate 1 (articles data)) post in
          post ++ post_footer self blog_name author_name
      end
  end.

(** [with open(path, 'w', encoding='utf-8') as f: f.write(content)] *)
Definition write_file (path content : str) : M unit := fun w =>
  match open_error env path with
  | Some e => (Raise e, w)
  | None =>
      (Return tt,
       {| files := <[path := content]> (files w); dirs := dirs w;
          stdout := stdout w; requests := requests w |})
  end.

(** [CityAMExtractor.save_blog_post] *)
Definition save_blog_post (self : CityAMExtractor) (content : str)
    (filename : option str) : M str :=
  let filename :=
    match filename with
    | None | Some [] =>
        let date_str := strftime_Ymd (now env) in
        lit "cityam_summary_" ++ date_str ++ lit ".md"
    | Some name => name
    end in
  let filepath := os_path_join (output_dir self) filename in
  write_file filepath content;;
  print (lit "Blog post saved to: " ++ filepath);;
  mret filepath.

Definition index_path : str := lit "README.md".

Definition readme_content (date_str new_filename : str) : str :=
  lit "# Daily City A.M. Business News Summaries

This repository automatically generates daily business news summaries from City A.M.'s RSS feed.

## Latest Summary
" ++ [128240] ++ lit " **[" ++ date_str ++ lit " Summary](summaries/"
  ++ os_path_basename new_filename ++ lit ")**

## About
- **Source**: [City A.M.](https://www.cityam.com) - London's leading business newspaper
- **Update Frequency**: Daily at 8:00 AM UTC
- **Content**: Top 5 business stories with summaries and links to full articles
- **Legal**: All content properly attributed with links to original sources

## Archive
All daily summaries are stored in the [`summaries/`](summaries/) directory.

## How It Works
This repository uses GitHub Actions to automatically:
1. Fetch the latest articles from City A.M.'s RSS feed
2. Generate formatted summaries with proper attribution
3. Commit and push the new content daily

---
*Automated by GitHub Actions | Content " ++ [169] ++ lit " City A.M.*
".

(** [CityAMExtractor.update_index] *)
Definition update_index (new_filename : str) : M unit :=
  let date_str := strftime_Ymd (now env) in
  write_file index_path (readme_content date_str new_filename);;
  print (lit "Updated " ++ index_path).

(** [CityAMExtractor.run_daily_extraction]; [sys.exit(1)] raises
    [SystemExit(1)], which [except Exception] lets through. *)
Definition run_daily_extraction (self : CityAMExtractor) : M bool :=
  print (replicate 50 61);;
  print (lit "City A.M. Daily Content Extraction");;
  print (replicate 50 61);;
  try_except
    (feed_data ← extract_articles env self (lit "news") 5;
     match feed_data with
     | None =>
         print ([10060] ++ lit " Failed to extract content from RSS feed");;
         raise (SystemExit 1)
     | Some _ =>
         let blog_content :=
           generate_blog_post self feed_data (lit "Business News Blog")
                              (lit "Automated Summary") in
         filename ← save_blog_post self blog_content None;
         update_index filename;;
         print ([9989] ++ lit " Daily extraction completed successfully!");;
         mret true
     end)
    (fun e =>
       print ([10060] ++ lit " Error during extraction: " ++ exn_str e);;
       raise (SystemExit 1)).

(** [os.path.exists] and [CityAMExtractor.ensure_output_dir] *)
Definition path_exists (w : World) (p : str) : bool :=
  bool_decide (p ∈ dirs w) || bool_decide (is_Some (files w !! p)).

Definition ensure_output_dir (self : CityAMExtractor) : M unit := fun w =>
  if path_exists w (output_dir self) then (Return tt, w)
  else (Return tt,
        {| files := files w; dirs := {[output_dir self]} ∪ dirs w;
           stdout := stdout w; requests := requests w |}).

(** [CityAMExtractor.__init__] *)
Definition CityAMExtractor_new : CityAMExtractor :=
  {| rss_feeds :=
       <[lit "news" := lit "https://www.cityam.com/news/rss"]>
       (<[lit "business" := lit "https://www.cityam.com/news/feed"]> ∅);
     base_url := lit "https://www.cityam.com";
     output_dir := lit "summaries" |}.

Definition CityAMExtractor_init : M CityAMExtractor :=
  ensure_output_dir CityAMExtractor_new;;
  mret CityAMExtractor_new.

(** [main] *)
Definition main : M bool :=
  extractor ← CityAMExtractor_init;
  run_daily_extraction extractor.

End Pipeline.

(** * Properties *)

(** ** Observations on text *)

Definition leading_ws (s : str) : bool :=
  match s with c :: _ => is_space c | [] => false end.

Definition trailing_ws (s : str) : bool :=
  match last s with Some c => is_space c | None => false end.

(** Two whitespace characters next to each other. *)
Fixpoint adjacent_ws (s : str) : bool :=
  match s with
  | a :: r => (is_space a && leading_ws r) || adjacent_ws r
  | [] => false
  end.




(** A word of [split]: not empty, no whitespace in it. *)
Definition is_word (w : str) : Prop :=
  w <> [] /\ Forall (fun c => is_space c = false) w.

(** ** Sample data for the examples *)

Definition sample_entry (name : string) : RawEntry :=
  {| entry_title := Some (lit "<b>Story " ++ lit name ++ lit "</b>");
     entry_summary := Some (lit "<p>FTSE 100 &amp; pound move on story " ++ lit name
                            ++ lit "</p>");
     entry_description := None;
     entry_link := Some (lit "https://www.cityam.com/story-" ++ lit name ++ lit "/");
     entry_published := Some (lit "Wed, 05 Nov 2025 07:00:00 +0000");
     entry_author := None;
     entry_tags := Some [ {| term := lit "Markets" |}; {| term := lit "Economics" |} ] |}.

(** An entry with nothing but a long description. *)
Definition long_entry : RawEntry :=
  {| entry_title := None; entry_summary := None;
     entry_description := Some (lit "<p>" ++ replicate 400 97 ++ lit "</p>");
     entry_link := None; entry_published := None; entry_author := None;
     entry_tags := None |}.

Definition no_meta : FeedMeta :=
  {| meta_title := None; meta_description := None; meta_updated := None |}.

Definition sample_feed : ParsedFeed :=
  {| bozo := None;
     entries := sample_entry <$> ["1"; "2"; "3"; "4"; "5"; "6"; "7"]%string;
     feed := no_meta |}.

Definition empty_feed : ParsedFeed :=
  {| bozo := None; entries := []; feed := no_meta |}.

Definition sample_now : datetime :=
  {| year := 2025; month := 11; day := 5; hour := 8; minute := 3 |}.

(** Surroundings in which every fetch has the given outcome and every
    file can be written. *)
Definition sample_env (outcome : result ParsedFeed) : Env :=
  {| html5 := html5_excerpt; now := sample_now;
     feedparser_parse := fun _ => outcome; open_error := fun _ => None |}.

Definition empty_world : World :=
  {| files := ∅; dirs := ∅; stdout := []; requests := [] |}.

Definition NEWS_URL : str := lit "https://www.cityam.com/news/rss".

Definition with_stdout (w : World) (lines : list str) : World :=
  {| files := files w; dirs := dirs w; stdout := lines; requests := requests w |}.

(** The banner that [run_daily_extraction] prints first. *)
Definition banner : list str :=
  [replicate 50 61; lit "City A.M. Daily Content Extraction"; replicate 50 61].

(** The world once [run_daily_extraction] has printed its banner. *)
Definition after_banner (w : World) : World :=
  with_stdout w (((stdout w ++ [replicate 50 61])
                  ++ [lit "City A.M. Daily Content Extraction"])
                 ++ [replicate 50 61]).

(** The numbered sections of a post, in article order. *)
Definition post_sections (arts : list Article) : list str :=
  (fun '(i, article) => post_section i article) <$> enumerate 1 arts.

(** The result for the first five sample entries. *)
Definition sample_result : FeedResult :=
  {| feed_title := lit "City A.M. News"; feed_description := [];
     last_updated := [];
     articles := select_articles (sample_env (Return sample_feed))
                   (entries sample_feed) 5 |}.

Definition no_result : FeedResult :=
  {| feed_title := lit "City A.M. News"; feed_description := [];
     last_updated := []; articles := [] |}.

(** ** Observations on a rendered post *)

(** [doc.split('\n')]; [cur] is the line being read. *)
Fixpoint lines_from (cur : str) (doc : str) : list str :=
  match doc with
  | [] => [cur]
  | c :: r =>
      if c =? NEWLINE then cur :: lines_from [] r else lines_from (cur ++ [c]) r
  end.

Definition lines (doc : str) : list str := lines_from [] doc.

(** A line of the form [## <digits>. ...], the heading of a numbered
    section. *)
Definition is_section_heading (line : str) : bool :=
  match line with
  | 35 :: 35 :: 32 :: r =>
      match run is_digit r with
      | O => false
      | S k => match drop (S k) r with
               | 46 :: 32 :: _ => true
               | _ => false
               end
      end
  | _ => false
  end.

Definition section_headings (doc : str) : list str :=
  List.filter is_section_heading (lines doc).


Definition no_newline (s : str) : Prop := NEWLINE ∉ s.







(** ** Further observations *)

(** [part in whole] *)
Definition occurs_in (part whole : str) : Prop :=
  exists pre suf, whole = pre ++ part ++ suf.

(** Text whose only whitespace is single spaces between words. *)
Definition single_spaced (s : str) : Prop :=
  leading_ws s = false /\ trailing_ws s = false /\ adjacent_ws s = false
  /\ Forall (fun c => is_space c = true -> c = SPACE) s.

(** The same feed without the parser's complaint. *)
Definition clear_bozo (parsed : ParsedFeed) : ParsedFeed :=
  {| bozo := None; entries := entries parsed; feed := feed parsed |}.

(** The same surroundings with another answer from the network. *)
Definition with_feed (env : Env) (outcome : result ParsedFeed) : Env :=
  {| html5 := html5 env; now := now env;
     feedparser_parse := fun _ => outcome; open_error := open_error env |}.

(** The URL that [extract_articles] hands to the parser for a label. *)
Definition requested (self : CityAMExtractor) (feed_name : str) : list str :=
  match rss_feeds self !! feed_name with
  | Some (c :: url) => [c :: url]
  | _ => []
  end.

(** What the renderer prints of an article. *)
Definition printed_fields (a : Article) : str * str * str * list str :=
  (title a, summary a, link a, categories a).

(** The same surroundings in which [path] cannot be opened for writing. *)
Definition refusing (env : Env) (path : str) : Env :=
  {| html5 := html5 env; now := now env;
     feedparser_parse := feedparser_parse env;
     open_error := fun p =>
       if bool_decide (p = path) then Some (OSError (lit "Permission denied"))
       else open_error env p |}.

(** Where a run of the standard extractor saves its post. *)
Definition post_path (env : Env) : str :=
  lit "summaries/cityam_summary_" ++ strftime_Ymd (now env) ++ lit ".md".

(** The post of a run, as [run_daily_extraction] asks for it. *)
Definition daily_post (env : Env) (data : FeedResult) : str :=
  generate_blog_post env CityAMExtractor_new (Some data)
    (lit "Business News Blog") (lit "Automated Summary").

(** The line printed by the handler of [run_daily_extraction]. *)
Definition error_line (e : exn) : str :=
  [10060] ++ lit " Error during extraction: " ++ exn_str e.

Definition say (w : World) (line : str) : World :=
  with_stdout w (stdout w ++ [line]).

Definition put (w : World) (path content : str) : World :=
  {| files := <[path := content]> (files w); dirs := dirs w;
     stdout := stdout w; requests := requests w |}.

(** What [except Exception] makes of an error raised in the run. *)
Definition handled (e : exn) (w : World) : result bool * World :=
  if is_Exception e then (Raise (SystemExit 1), say w (error_line e))
  else (Raise e, w).

(** * Proofs *)

(** ** Substitution *)

Lemma re_sub_cons m repl c r :
  re_sub m repl (c :: r) =
  match m (c :: r) with
  | Some (S n) => repl (take (S n) (c :: r)) ++ re_sub m repl (drop n r)
  | _ => c :: re_sub m repl r
  end.
Proof.
  simp re_sub. destruct (m (c :: r)) as [[|n]|]; simpl; reflexivity.
Qed.


Lemma strip_tags_cons c r :
  strip_tags (c :: r) =
  match match_tag (c :: r) with
  | Some (S n) => strip_tags (drop n r)
  | _ => c :: strip_tags r
  end.
Proof. unfold strip_tags. rewrite re_sub_cons. by destruct (match_tag _) as [[|?]|]. Qed.







(** ** Words *)

Lemma split_from_words cur s :
  Forall (fun c => is_space c = false) cur ->
  Forall is_word (split_from cur s).
Proof.
  revert cur. induction s as [|c r IH]; intros cur Hcur; simpl.
  - destruct cur; [constructor|]. apply Forall_singleton. by split.
  - destruct (is_space c) eqn:Hc.
    + destruct cur; [by apply IH|]. constructor; [by split|]. by apply IH.
    + apply IH. apply Forall_app. split; [done|]. by apply Forall_singleton.
Qed.

Lemma split_words s : Forall is_word (split s).
Proof. by apply split_from_words. Qed.







(** ** The shape of joined words *)

Lemma leading_ws_word w t : is_word w -> leading_ws (w ++ t) = false.
Proof. intros [Hne Hw]. destruct Hw; [done|]. done. Qed.

Lemma adjacent_ws_word w t :
  Forall (fun c => is_space c = false) w -> adjacent_ws (w ++ t) = adjacent_ws t.
Proof.
  induction 1 as [|c w Hc _ IH]; [done|]. simpl. by rewrite Hc, IH.
Qed.

Lemma trailing_ws_app s t : t <> [] -> trailing_ws (s ++ t) = trailing_ws t.
Proof.
  intros Ht. unfold trailing_ws. rewrite last_app.
  destruct (last t) eqn:E; [done|].
  apply last_None in E. done.
Qed.

Lemma join_words_nonempty w ws : is_word w -> join (lit " ") (w :: ws) <> [].
Proof.
  intros [Hne _]. destruct ws; simpl; [done|]. by destruct w.
Qed.

Lemma join_words_shape ws :
  Forall is_word ws ->
  leading_ws (join (lit " ") ws) = false
  /\ trailing_ws (join (lit " ") ws) = false
  /\ adjacent_ws (join (lit " ") ws) = false.
Proof.
  induction ws as [|w ws IH]; [done|]. intros Hws.
  apply Forall_cons in Hws as [Hw Hws].
  destruct (IH Hws) as (Hl & Ht & Ha). destruct ws as [|w' ws].
  - simpl. destruct Hw as [Hne Hall]. rewrite <- (app_nil_r w).
    split; [by apply leading_ws_word|]. split.
    + rewrite app_nil_r. unfold trailing_ws.
      destruct (last w) eqn:E; [|done].
      apply last_Some_elem_of in E.
      by eapply Forall_forall in Hall.
    + by rewrite adjacent_ws_word.
  - change (join (lit " ") (w :: w' :: ws))
      with (w ++ lit " " ++ join (lit " ") (w' :: ws)).
    apply Forall_cons in Hws as [Hw' Hws].
    split; [by apply leading_ws_word|]. split.
    + rewrite app_assoc, trailing_ws_app; [done|].
      by apply join_words_nonempty.
    + rewrite adjacent_ws_word by apply Hw. simpl.
      simpl in Hl, Ha. by rewrite Hl, Ha.
Qed.

(** ** The sanitizer *)

Lemma unescape_no_amp html5 s : AMP ∉ s -> unescape html5 s = s.
Proof. intros H. unfold unescape. by rewrite bool_decide_eq_false_2. Qed.

Lemma clean_html_unfold html5 text :
  clean_html html5 text = join (lit " ") (split (unescape html5 (strip_tags text))).
Proof. destruct text; [|done]. unfold clean_html. by vm_compute. Qed.

Lemma clean_html_shape html5 text :
  leading_ws (clean_html html5 text) = false
  /\ trailing_ws (clean_html html5 text) = false
  /\ adjacent_ws (clean_html html5 text) = false.
Proof. rewrite clean_html_unfold. apply join_words_shape, split_words. Qed.

Example clean_html_markup :
  clean_html html5_excerpt (lit "<p>Rates  &amp; <b>bonds</b>
  rise&nbsp;again</p>") = lit "Rates & bonds rise again".
Proof. by vm_compute. Qed.

Example clean_html_decoded_tag :
  clean_html html5_excerpt (lit "&lt;b&gt;") = lit "<b>".
Proof. by vm_compute. Qed.

Example clean_html_double_escape :
  clean_html html5_excerpt (lit "&amp;amp;") = lit "&amp;".
Proof. by vm_compute. Qed.




(** ** The article selector *)

Lemma fold_append_map {A B} (f : A -> B) (l : list A) (acc : list B) :
  fold_left (fun articles entry => articles ++ [f entry]) l acc = acc ++ (f <$> l).
Proof.
  revert acc. induction l as [|x l IH]; intros acc; simpl.
  - by rewrite app_nil_r.
  - rewrite IH. by rewrite <- app_assoc.
Qed.

Lemma select_articles_map env feed_entries max_articles :
  select_articles env feed_entries max_articles
  = build_article env <$> slice_to feed_entries max_articles.
Proof. unfold select_articles. by rewrite fold_append_map. Qed.

Lemma limit_summary_length s : (length (limit_summary s) <= 300)%nat.
Proof.
  unfold limit_summary. destruct (300 <? length s)%nat eqn:E.
  - apply Nat.ltb_lt in E. rewrite length_app, length_take.
    change (length (lit "...")) with 3%nat. lia.
  - apply Nat.ltb_ge in E. lia.
Qed.

(** C3: with [L] the length of the sanitized summary, the stored summary
    is that text unchanged when [L <= 300], and when [L > 300] it is the
    first 297 characters followed by ["..."], 300 characters in all. *)
Theorem summary_truncation env entry :
  let s := clean_html (html5 env) (raw_summary entry) in
  let stored := summary (build_article env entry) in
  ((length s <= 300)%nat -> stored = s /\ length stored = length s)
  /\ ((300 < length s)%nat ->
      stored = take 297 s ++ lit "..." /\ length stored = 300%nat
      /\ take 297 stored = take 297 s /\ drop 297 stored = lit "...").
Proof.
  simpl. unfold limit_summary.
  set (s := clean_html (html5 env) (raw_summary entry)). split.
  - intros H. apply Nat.ltb_ge in H. by rewrite H.
  - intros H. assert (E : (300 <? length s)%nat = true) by by apply Nat.ltb_lt.
    rewrite E. assert (Hlen : length (take 297 s) = 297%nat)
      by (rewrite length_take; lia).
    split; [done|]. split; [rewrite length_app, Hlen; done|]. split.
    + rewrite take_app_length'; done.
    + rewrite drop_app_length'; done.
Qed.


Lemma clean_html_no_title html5 :
  clean_html html5 (lit "No title") = lit "No title".
Proof.
  rewrite clean_html_unfold, unescape_no_amp; [by vm_compute|].
  apply (bool_decide_unpack _). by vm_compute.
Qed.

(** C9: a missing field gets its default (title "No title", author
    "City A.M.", link and published empty, categories empty); a field
    that is present is kept, the title after sanitization. *)
Theorem build_article_defaults env entry :
  let a := build_article env entry in
  match entry_title entry with
  | None => title a = lit "No title"
  | Some t => title a = clean_html (html5 env) t
  end
  /\ match entry_author entry with
     | None => author a = lit "City A.M."
     | Some x => author a = x
     end
  /\ match entry_link entry with
     | None => link a = []
     | Some x => link a = x
     end
  /\ match entry_published entry with
     | None => published a = []
     | Some x => published a = x
     end
  /\ match entry_tags entry with
     | None => categories a = []
     | Some tags => categories a = term <$> tags
     end.
Proof.
  cbv zeta. destruct entry as [t s d l p au tg]. repeat split.
  - destruct t; [done|]. apply clean_html_no_title.
  - by destruct au.
  - by destruct l.
  - by destruct p.
  - by destruct tg.
Qed.

Lemma summary_truncation_witness :
  let env := sample_env (Return sample_feed) in
  let long := clean_html (html5 env) (raw_summary long_entry) in
  let short := clean_html (html5 env) (raw_summary (sample_entry "1")) in
  ((300 < length long)%nat
   /\ summary (build_article env long_entry) = replicate 297 97 ++ lit "..."
   /\ length (summary (build_article env long_entry)) = 300%nat)
  /\ ((length short <= 300)%nat
      /\ summary (build_article env (sample_entry "1"))
         = lit "FTSE 100 & pound move on story 1").
Proof.
  cbv zeta.
  assert (Hlong : (300 < length (clean_html (html5 (sample_env (Return sample_feed)))
                                  (raw_summary long_entry)))%nat)
    by (vm_compute; lia).
  assert (Hshort : (length (clean_html (html5 (sample_env (Return sample_feed)))
                              (raw_summary (sample_entry "1"))) <= 300)%nat)
    by (vm_compute; lia).
  split.
  - split; [exact Hlong|].
    destruct (proj2 (summary_truncation (sample_env (Return sample_feed)) long_entry)
                Hlong) as (Hs & Hl & _).
    split; [|exact Hl]. rewrite Hs. by vm_compute.
  - split; [exact Hshort|].
    destruct (proj1 (summary_truncation (sample_env (Return sample_feed))
                       (sample_entry "1")) Hshort) as (Hs & _).
    rewrite Hs. by vm_compute.
Defined.


(** ** The fetcher *)

Ltac run_m :=
  unfold mbind, M_bind, mret, M_ret, try_except, raise, print, parse; simpl.

(** Whatever the network does, no [Exception] leaves the fetch of a
    mapped label. *)
Lemma extract_articles_contained env self feed_name max_articles w url :
  rss_feeds self !! feed_name = Some url -> url <> [] ->
  match fst (extract_articles env self feed_name max_articles w) with
  | Raise e => is_Exception e = false
  | Return _ => True
  end.
Proof.
  intros H Hurl. unfold extract_articles. rewrite H.
  destruct url as [|u url]; [done|]. run_m.
  destruct (feedparser_parse env (u :: url)) as [parsed|e]; simpl.
  - destruct (bozo parsed); simpl; by destruct (entries parsed).
  - by destruct e.
Qed.

(** C7: a label that is not in the feed mapping makes the fetch raise the
    unknown-source error, [ValueError("Unknown feed: <label>")], with the
    world untouched: nothing was requested from the network and nothing
    printed.  For a label mapped to a URL no [Exception] leaves the fetch. *)
Theorem extract_articles_unknown_source env self feed_name max_articles w :
  (rss_feeds self !! feed_name = None ->
     extract_articles env self feed_name max_articles w
     = (Raise (ValueError (lit "Unknown feed: " ++ feed_name)), w))
  /\ (forall url, rss_feeds self !! feed_name = Some url -> url <> [] ->
        match fst (extract_articles env self feed_name max_articles w) with
        | Raise e => is_Exception e = false
        | Return _ => True
        end).
Proof.
  split.
  - intros H. unfold extract_articles. by rewrite H.
  - intros url. apply extract_articles_contained.
Qed.

Lemma extract_articles_unknown_source_witness :
  let env := sample_env (Return sample_feed) in
  rss_feeds CityAMExtractor_new !! lit "sport" = None
  /\ extract_articles env CityAMExtractor_new (lit "sport") 5 empty_world
     = (Raise (ValueError (lit "Unknown feed: sport")), empty_world)
  /\ rss_feeds CityAMExtractor_new !! lit "news"
     = Some (lit "https://www.cityam.com/news/rss")
  /\ lit "https://www.cityam.com/news/rss" <> []
  /\ match fst (extract_articles env CityAMExtractor_new (lit "news") 5 empty_world) with
     | Raise e => is_Exception e = false
     | Return _ => True
     end.
Proof.
  cbv zeta.
  assert (H1 : rss_feeds CityAMExtractor_new !! lit "sport" = None) by by vm_compute.
  assert (H2 : rss_feeds CityAMExtractor_new !! lit "news"
               = Some (lit "https://www.cityam.com/news/rss")) by by vm_compute.
  assert (H3 : lit "https://www.cityam.com/news/rss" <> []) by by vm_compute.
  split; [exact H1|]. split.
  - exact (proj1 (extract_articles_unknown_source (sample_env (Return sample_feed))
                    CityAMExtractor_new (lit "sport") 5 empty_world) H1).
  - split; [exact H2|]. split; [exact H3|].
    exact (proj2 (extract_articles_unknown_source (sample_env (Return sample_feed))
                    CityAMExtractor_new (lit "news") 5 empty_world) _ H2 H3).
Defined.

(** C8: when retrieving or parsing the feed raises an [Exception], the
    fetch prints the failure and returns [None]; no [Exception] leaves
    [extract_articles] for a mapped label. *)
Theorem extract_articles_catches env self feed_name max_articles w url :
  rss_feeds self !! feed_name = Some url -> url <> [] ->
  (forall e, feedparser_parse env url = Raise e -> is_Exception e = true ->
     extract_articles env self feed_name max_articles w
     = (Return None,
        {| files := files w; dirs := dirs w;
           stdout := stdout w ++ [lit "Fetching content from: " ++ url]
                     ++ [lit "Error extracting from feed " ++ url ++ lit ": "
                         ++ exn_str e];
           requests := requests w ++ [url] |}))
  /\ (forall e w',
        extract_articles env self feed_name max_articles w = (Raise e, w') ->
        is_Exception e = false).
Proof.
  intros H Hurl. split.
  - intros e Hparse He. unfold extract_articles. rewrite H.
    destruct url as [|u url]; [done|]. run_m. rewrite Hparse. simpl.
    rewrite He. by rewrite <- app_assoc.
  - intros e w' Hex.
    pose proof (extract_articles_contained env self feed_name max_articles w url
                  H Hurl) as Hc. by rewrite Hex in Hc.
Qed.

Lemma extract_articles_catches_witness :
  let env := sample_env (Raise (FeedError (lit "connection refused"))) in
  let url := lit "https://www.cityam.com/news/rss" in
  rss_feeds CityAMExtractor_new !! lit "news" = Some url /\ url <> []
  /\ feedparser_parse env url = Raise (FeedError (lit "connection refused"))
  /\ is_Exception (FeedError (lit "connection refused")) = true
  /\ extract_articles env CityAMExtractor_new (lit "news") 5 empty_world
     = (Return None,
        {| files := ∅; dirs := ∅;
           stdout := [lit "Fetching content from: https://www.cityam.com/news/rss";
                      lit "Error extracting from feed https://www.cityam.com/news/rss: connection refused"];
           requests := [lit "https://www.cityam.com/news/rss"] |}).
Proof.
  cbv zeta.
  assert (H1 : rss_feeds CityAMExtractor_new !! lit "news"
               = Some (lit "https://www.cityam.com/news/rss")) by by vm_compute.
  assert (H2 : lit "https://www.cityam.com/news/rss" <> []) by by vm_compute.
  repeat (split; [done|]).
  exact (proj1 (extract_articles_catches
                  (sample_env (Raise (FeedError (lit "connection refused"))))
                  CityAMExtractor_new (lit "news") 5 empty_world _ H1 H2)
           _ eq_refl eq_refl).
Defined.

(** A feed without entries: the fetch reports no data. *)
Lemma extract_articles_no_entries env self feed_name max_articles w url parsed :
  rss_feeds self !! feed_name = Some url -> url <> [] ->
  feedparser_parse env url = Return parsed -> entries parsed = [] ->
  fst (extract_articles env self feed_name max_articles w) = Return None
  /\ files (snd (extract_articles env self feed_name max_articles w)) = files w
  /\ last (stdout (snd (extract_articles env self feed_name max_articles w)))
     = Some (lit "No articles found in feed").
Proof.
  intros H Hurl Hparse Hent. unfold extract_articles. rewrite H.
  destruct url as [|u url]; [done|]. run_m. rewrite Hparse. simpl.
  destruct (bozo parsed); simpl; rewrite Hent; simpl;
    repeat split; by rewrite last_snoc.
Qed.

(** A returned [FeedResult] has the articles of at least one entry. *)
Lemma extract_articles_some env self feed_name max_articles w data w' :
  extract_articles env self feed_name max_articles w = (Return (Some data), w') ->
  exists url parsed,
    rss_feeds self !! feed_name = Some url
    /\ feedparser_parse env url = Return parsed
    /\ entries parsed <> []
    /\ articles data = select_articles env (entries parsed) max_articles.
Proof.
  unfold extract_articles. destruct (rss_feeds self !! feed_name) as [url|]; [|done].
  destruct url as [|u url]; [done|]. run_m.
  destruct (feedparser_parse env (u :: url)) as [parsed|e] eqn:Hparse; simpl.
  - intros H. exists (u :: url), parsed.
    destruct (bozo parsed); simpl in H;
      destruct (entries parsed) eqn:Hent; simpl in H; try done;
      injection H as <- _; done.
  - destruct (is_Exception e); done.
Qed.

Lemma extract_articles_not_empty env self feed_name max_articles w data w' :
  (0 < max_articles)%Z ->
  extract_articles env self feed_name max_articles w = (Return (Some data), w') ->
  articles data <> [].
Proof.
  intros HN (url & parsed & _ & _ & Hent & ->)%extract_articles_some.
  rewrite select_articles_map. unfold slice_to.
  destruct (0 <=? max_articles)%Z eqn:E; [|apply Z.leb_gt in E; lia].
  destruct (entries parsed) as [|entry rest]; [done|].
  destruct (Z.to_nat max_articles) eqn:En; [lia|]. done.
Qed.

(** Every summary of a returned result is at most 300 characters long. *)
Lemma extracted_summaries_bounded env self feed_name max_articles w data w' :
  extract_articles env self feed_name max_articles w = (Return (Some data), w') ->
  Forall (fun a => (length (summary a) <= 300)%nat) (articles data).
Proof.
  intros (url & parsed & _ & _ & _ & ->)%extract_articles_some.
  rewrite select_articles_map. apply Forall_fmap, Forall_forall.
  intros entry _. apply limit_summary_length.
Qed.

(** ** Running the monad *)

Lemma bind_return {A B} (c : M A) (k : A -> M B) w a w' :
  c w = (Return a, w') -> (c ≫= k) w = k a w'.
Proof. intros H. unfold mbind, M_bind. by rewrite H. Qed.

Lemma bind_raise {A B} (c : M A) (k : A -> M B) w e w' :
  c w = (Raise e, w') -> (c ≫= k) w = (Raise e, w').
Proof. intros H. unfold mbind, M_bind. by rewrite H. Qed.

Lemma try_except_return {A} (body : M A) handler w a w' :
  body w = (Return a, w') -> try_except body handler w = (Return a, w').
Proof. intros H. unfold try_except. by rewrite H. Qed.

Lemma try_except_caught {A} (body : M A) handler w e w' :
  body w = (Raise e, w') -> is_Exception e = true ->
  try_except body handler w = handler e w'.
Proof. intros H He. unfold try_except. by rewrite H, He. Qed.

Lemma try_except_passed {A} (body : M A) handler w e w' :
  body w = (Raise e, w') -> is_Exception e = false ->
  try_except body handler w = (Raise e, w').
Proof. intros H He. unfold try_except. by rewrite H, He. Qed.

Lemma print_then {B} line (k : M B) w :
  (print line ≫= fun _ => k) w = k (with_stdout w (stdout w ++ [line])).
Proof. done. Qed.

(** The constructor leaves the files alone; the run follows it. *)
Lemma main_run env w :
  exists w0, files w0 = files w
             /\ main env w = run_daily_extraction env CityAMExtractor_new w0.
Proof.
  unfold main, CityAMExtractor_init, ensure_output_dir.
  destruct (path_exists w (output_dir CityAMExtractor_new)) eqn:Hdir.
  - exists w. split; [done|].
    erewrite bind_return; [done|]. erewrite bind_return; [done|]. by rewrite Hdir.
  - eexists. split; [|erewrite bind_return; [done|]; erewrite bind_return; [done|];
                       by rewrite Hdir]. done.
Qed.

(** C6: when the fetched feed has no entries, [extract_articles] returns
    [None] and not a result with an empty article list, and the run ends
    with exit code 1 and has written no file. *)
Theorem empty_feed_exits env w parsed :
  entries parsed = [] ->
  (forall self feed_name url max_articles,
     rss_feeds self !! feed_name = Some url -> url <> [] ->
     feedparser_parse env url = Return parsed ->
     fst (extract_articles env self feed_name max_articles w) = Return None
     /\ files (snd (extract_articles env self feed_name max_articles w)) = files w)
  /\ (feedparser_parse env NEWS_URL = Return parsed ->
      fst (run_daily_extraction env CityAMExtractor_new w) = Raise (SystemExit 1)
      /\ files (snd (run_daily_extraction env CityAMExtractor_new w)) = files w
      /\ fst (main env w) = Raise (SystemExit 1)
      /\ files (snd (main env w)) = files w).
Proof.
  intros Hent. split.
  { intros self feed_name url N Hfeed Hurl Hparse.
    by destruct (extract_articles_no_entries env self feed_name N w url parsed)
      as (? & ? & _). }
  intros Hparse.
  assert (Hrun : forall w0, exists w',
    run_daily_extraction env CityAMExtractor_new w0 = (Raise (SystemExit 1), w')
    /\ files w' = files w0).
  { intros w0.
    destruct (extract_articles_no_entries env CityAMExtractor_new
                (lit "news") 5 (after_banner w0) NEWS_URL parsed)
      as (Hres & Hfiles & _); try done.
    destruct (extract_articles env CityAMExtractor_new (lit "news") 5
                (after_banner w0)) as [r w2] eqn:Hex.
    simpl in Hres, Hfiles. subst r.
    eexists. split.
    - unfold run_daily_extraction. rewrite !print_then.
      eapply try_except_passed; [|done].
      erewrite bind_return by exact Hex. cbv beta iota. by rewrite print_then.
    - done. }
  destruct (Hrun w) as (w' & Hw & Hf). rewrite Hw.
  split; [done|]. split; [done|].
  destruct (main_run env w) as (w0 & Hw0 & ->).
  destruct (Hrun w0) as (w'' & -> & Hf''). split; [done|]. simpl. congruence.
Qed.

Lemma empty_feed_exits_witness :
  let env := sample_env (Return empty_feed) in
  entries empty_feed = []
  /\ (rss_feeds CityAMExtractor_new !! lit "business"
      = Some (lit "https://www.cityam.com/news/feed")
      /\ lit "https://www.cityam.com/news/feed" <> []
      /\ feedparser_parse env (lit "https://www.cityam.com/news/feed")
         = Return empty_feed
      /\ fst (extract_articles env CityAMExtractor_new (lit "business") 3
                empty_world) = Return None
      /\ files (snd (extract_articles env CityAMExtractor_new (lit "business") 3
                       empty_world)) = ∅)
  /\ (feedparser_parse env NEWS_URL = Return empty_feed
      /\ fst (run_daily_extraction env CityAMExtractor_new empty_world)
         = Raise (SystemExit 1)
      /\ files (snd (run_daily_extraction env CityAMExtractor_new empty_world)) = ∅
      /\ fst (main env empty_world) = Raise (SystemExit 1)
      /\ files (snd (main env empty_world)) = ∅).
Proof.
  cbv zeta.
  pose proof (empty_feed_exits (sample_env (Return empty_feed)) empty_world
                empty_feed eq_refl) as [Hfetch Hrun].
  assert (H1 : rss_feeds CityAMExtractor_new !! lit "business"
               = Some (lit "https://www.cityam.com/news/feed")) by by vm_compute.
  assert (H2 : lit "https://www.cityam.com/news/feed" <> []) by by vm_compute.
  split; [reflexivity|]. split.
  - split; [exact H1|]. split; [exact H2|]. split; [reflexivity|].
    exact (Hfetch CityAMExtractor_new (lit "business") _ 3%Z H1 H2 eq_refl).
  - split; [reflexivity|]. exact (Hrun eq_refl).
Defined.

Example empty_feed_run_output :
  stdout (snd (main (sample_env (Return empty_feed)) empty_world))
  = banner ++ [lit "Fetching content from: https://www.cityam.com/news/rss";
               lit "No articles found in feed";
               [10060] ++ lit " Failed to extract content from RSS feed"].
Proof. by vm_compute. Qed.

(** ** The renderer *)

Lemma enumerate_lookup {A} (l : list A) start i :
  enumerate start l !! i = (fun x => ((start + i)%nat, x)) <$> l !! i.
Proof.
  revert start i. induction l as [|x l IH]; intros start [|i]; simpl; try done.
  - by rewrite Nat.add_0_r.
  - rewrite IH. by rewrite Nat.add_succ_r.
Qed.

Lemma fold_sections (l : list (nat * Article)) (post : str) :
  fold_left (fun post '(i, article) => post ++ post_section i article) l post
  = post ++ concat ((fun '(i, article) => post_section i article) <$> l).
Proof.
  revert post. induction l as [|[i a] l IH]; intros post; simpl.
  - by rewrite app_nil_r.
  - rewrite IH. by rewrite <- app_assoc.
Qed.


Lemma post_sections_lookup arts i :
  post_sections arts !! i = post_section (S i) <$> arts !! i.
Proof.
  unfold post_sections. rewrite list_lookup_fmap, enumerate_lookup.
  by destruct (arts !! i).
Qed.

(** C10: for an absent feed result the renderer returns the same fixed
    string as for a result without articles. *)
Theorem generate_blog_post_absent env self blog_name author_name :
  generate_blog_post env self None blog_name author_name
  = lit "No articles available for summary."
  /\ forall ftitle fdesc updated,
       generate_blog_post env self
         (Some {| feed_title := ftitle; feed_description := fdesc;
                  last_updated := updated; articles := [] |})
         blog_name author_name
       = generate_blog_post env self None blog_name author_name.
Proof. done. Qed.

(** The post is its header, the sections of the articles, its footer. *)
Lemma generate_blog_post_parts env self data blog_name author_name :
  articles data <> [] ->
  generate_blog_post env self (Some data) blog_name author_name
  = post_header (strftime_BdY (now env)) ++ concat (post_sections (articles data))
    ++ post_footer env self blog_name author_name.
Proof.
  intros Hne. unfold generate_blog_post.
  destruct (articles data) as [|a arts] eqn:E; [done|].
  rewrite fold_sections. by rewrite <- app_assoc.
Qed.

(** ** Dates *)




(** ** The writer and the whole run *)

Lemma default_path env :
  os_path_join (lit "summaries")
    (lit "cityam_summary_" ++ strftime_Ymd (now env) ++ lit ".md")
  = lit "summaries/cityam_summary_" ++ strftime_Ymd (now env) ++ lit ".md".
Proof. done. Qed.

Lemma write_file_ok env path content w :
  open_error env path = None ->
  write_file env path content w
  = (Return tt,
     {| files := <[path := content]> (files w); dirs := dirs w;
        stdout := stdout w; requests := requests w |}).
Proof. intros H. unfold write_file. by rewrite H. Qed.

Lemma save_blog_post_run env self content w :
  let path := os_path_join (output_dir self)
                (lit "cityam_summary_" ++ strftime_Ymd (now env) ++ lit ".md") in
  open_error env path = None ->
  save_blog_post env self content None w
  = (Return path,
     {| files := <[path := content]> (files w); dirs := dirs w;
        stdout := stdout w ++ [lit "Blog post saved to: " ++ path];
        requests := requests w |}).
Proof.
  intros path H. unfold save_blog_post. fold path.
  erewrite bind_return by (by apply write_file_ok). done.
Qed.

Lemma update_index_run env new_filename w :
  open_error env index_path = None ->
  update_index env new_filename w
  = (Return tt,
     {| files := <[index_path :=
                     readme_content (strftime_Ymd (now env)) new_filename]> (files w);
        dirs := dirs w;
        stdout := stdout w ++ [lit "Updated README.md"];
        requests := requests w |}).
Proof.
  intros H. unfold update_index.
  erewrite bind_return by (by apply write_file_ok). done.
Qed.

(** The fetch of the news feed, when it has entries. *)
Lemma extract_news env w parsed :
  feedparser_parse env NEWS_URL = Return parsed -> entries parsed <> [] ->
  exists data w',
    extract_articles env CityAMExtractor_new (lit "news") 5 w
    = (Return (Some data), w')
    /\ articles data = select_articles env (entries parsed) 5
    /\ files w' = files w.
Proof.
  intros Hparse Hent. unfold extract_articles.
  change (rss_feeds CityAMExtractor_new !! lit "news") with (Some NEWS_URL).
  cbv iota. change NEWS_URL with (104 :: drop 1 NEWS_URL) at 1. cbv iota.
  change (104 :: drop 1 NEWS_URL) with NEWS_URL.
  run_m. rewrite Hparse. simpl.
  destruct (bozo parsed); simpl; destruct (entries parsed) eqn:E; try done;
    simpl; eexists _, _; split; try reflexivity; done.
Qed.


(** A run that cannot write the post: the error is printed and the run
    ends with exit code 1, the index untouched. *)
Lemma run_daily_extraction_write_error env w parsed e :
  feedparser_parse env NEWS_URL = Return parsed -> entries parsed <> [] ->
  open_error env (lit "summaries/cityam_summary_" ++ strftime_Ymd (now env)
                  ++ lit ".md") = Some e ->
  is_Exception e = true ->
  exists w',
    run_daily_extraction env CityAMExtractor_new w = (Raise (SystemExit 1), w')
    /\ files w' = files w
    /\ last (stdout w') = Some ([10060] ++ lit " Error during extraction: "
                                ++ exn_str e).
Proof.
  intros Hparse Hent Hopen He.
  destruct (extract_news env (after_banner w) parsed Hparse Hent)
    as (data & w2 & Hex & Harts & Hfiles).
  eexists. split; [|split].
  - unfold run_daily_extraction. rewrite !print_then.
    erewrite try_except_caught; [| |exact He].
    + rewrite print_then. reflexivity.
    + erewrite bind_return by exact Hex.
      cbv beta iota. eapply bind_raise. unfold save_blog_post.
      eapply bind_raise. unfold write_file.
      rewrite default_path, Hopen. reflexivity.
  - done.
  - cbn [stdout with_stdout]. by rewrite last_snoc.
Qed.




(** The scenario of seven entries with a maximum of five. *)
Example seven_entries_run :
  let env := sample_env (Return sample_feed) in
  let w := snd (main env empty_world) in
  stdout w
  = banner ++ [lit "Fetching content from: https://www.cityam.com/news/rss";
               lit "Successfully extracted 5 articles";
               lit "Blog post saved to: summaries/cityam_summary_2025-11-05.md";
               lit "Updated README.md";
               [9989] ++ lit " Daily extraction completed successfully!"]
  /\ files w !! lit "README.md"
     = Some (readme_content (lit "2025-11-05")
               (lit "summaries/cityam_summary_2025-11-05.md"))
  /\ requests w = [NEWS_URL].
Proof. by vm_compute. Qed.

(** ** The lines of a post *)










(** ** Decimal numerals *)

Lemma lit_cons (a : ascii) (s : string) :
  lit (String a s) = N_of_ascii a :: lit s.
Proof. reflexivity. Qed.

Lemma string_of_uint_digits (d : Decimal.uint) :
  Forall (fun c => is_digit c = true) (lit (NilEmpty.string_of_uint d)).
Proof.
  induction d as [|d IH|d IH|d IH|d IH|d IH|d IH|d IH|d IH|d IH|d IH];
    [apply Forall_nil_2|..];
    cbn [NilEmpty.string_of_uint]; rewrite lit_cons;
    (apply Forall_cons_2; [reflexivity|exact IH]).
Qed.

Lemma str_of_nat_digits n :
  str_of_nat n <> [] /\ Forall (fun c => is_digit c = true) (str_of_nat n).
Proof.
  unfold str_of_nat. destruct (Nat.to_uint n) as [|d|d|d|d|d|d|d|d|d|d] eqn:E.
  1: by split; [|repeat constructor].
  all: split; [done|]; apply (string_of_uint_digits (_ d)).
Qed.









(** ** Headings among the lines *)










Example sample_post_headings :
  section_headings
    (generate_blog_post (sample_env (Return sample_feed)) CityAMExtractor_new
       (Some sample_result) (lit "Business News Blog") (lit "Automated Summary"))
  = [lit "## 1. Story 1"; lit "## 2. Story 2"; lit "## 3. Story 3";
     lit "## 4. Story 4"; lit "## 5. Story 5"].
Proof. by vm_compute. Qed.




Example first_section_text :
  post_section 1 (build_article (sample_env (Return sample_feed)) (sample_entry "1"))
  = lit "## 1. Story 1

**Summary**: FTSE 100 & pound move on story 1

**Categories**: Markets, Economics

**[Read the full article at City A.M.](https://www.cityam.com/story-1/)**

---

".
Proof. by vm_compute. Qed.

(** A title with a line break can make a line that reads like a heading:
    the count of headings is that of the articles only for one-line
    fields. *)
Example heading_in_a_title :
  let a := {| title := lit "Markets
## 2. fall"; link := []; summary := []; published := []; author := [];
              categories := [] |} in
  section_headings
    (generate_blog_post (sample_env (Return sample_feed)) CityAMExtractor_new
       (Some {| feed_title := []; feed_description := []; last_updated := [];
                articles := [a] |})
       (lit "Business News Blog") (lit "Automated Summary"))
  = [lit "## 1. Markets"; lit "## 2. fall"].
Proof. by vm_compute. Qed.

(** * Further properties of the script *)

(** ** More on the sanitizer *)

Lemma strip_tags_no_lt s : LT_SIGN ∉ s -> strip_tags s = s.
Proof.
  induction s as [|c r IH]; intros H; [by unfold strip_tags; simp re_sub|].
  apply not_elem_of_cons in H as [Hc Hr].
  rewrite strip_tags_cons. simpl.
  destruct (c =? LT_SIGN) eqn:E; [by apply N.eqb_eq in E|].
  by rewrite IH.
Qed.

Lemma tag_close_found t b :
  GT_SIGN ∉ t -> NEWLINE ∉ t ->
  tag_close (t ++ GT_SIGN :: b) = Some (S (length t)).
Proof.
  induction t as [|c t IH]; intros Hgt Hnl; [done|].
  apply not_elem_of_cons in Hgt as [Hc1 Hgt].
  apply not_elem_of_cons in Hnl as [Hc2 Hnl]. simpl.
  destruct (c =? GT_SIGN) eqn:E1; [by apply N.eqb_eq in E1|].
  destruct (c =? NEWLINE) eqn:E2; [by apply N.eqb_eq in E2|].
  by rewrite IH.
Qed.

(** A tag on one line is removed and the text before it is kept: the
    text up to the first ['<'] is copied, the tag up to its first ['>'] is
    dropped, and stripping goes on after it. *)
Theorem strip_tags_one_tag a t b :
  (LT_SIGN ∉ a) -> (GT_SIGN ∉ t) -> (NEWLINE ∉ t) ->
  strip_tags (a ++ LT_SIGN :: t ++ GT_SIGN :: b) = a ++ strip_tags b.
Proof.
  intros Ha Hgt Hnl. induction a as [|c a IH].
  - simpl. rewrite strip_tags_cons. simpl.
    rewrite tag_close_found by done. simpl.
    f_equal. rewrite (cons_middle GT_SIGN t b), app_assoc.
    apply drop_app_length'. rewrite length_app. simpl. lia.
  - apply not_elem_of_cons in Ha as [Hc Ha]. simpl.
    rewrite strip_tags_cons. simpl.
    destruct (c =? LT_SIGN) eqn:E; [by apply N.eqb_eq in E|].
    by rewrite IH.
Qed.

Lemma strip_tags_one_tag_witness :
  (LT_SIGN ∉ lit "Rates ") /\ (GT_SIGN ∉ lit "b class=x") /\ (NEWLINE ∉ lit "b class=x")
  /\ strip_tags (lit "Rates <b class=x>rise") = lit "Rates rise".
Proof.
  assert (H1 : LT_SIGN ∉ lit "Rates ") by (apply (bool_decide_unpack _); by vm_compute).
  assert (H2 : GT_SIGN ∉ lit "b class=x") by (apply (bool_decide_unpack _); by vm_compute).
  assert (H3 : NEWLINE ∉ lit "b class=x") by (apply (bool_decide_unpack _); by vm_compute).
  repeat (split; [done|]).
  pose proof (strip_tags_one_tag (lit "Rates ") (lit "b class=x") (lit "rise") H1 H2 H3)
    as H.
  rewrite (strip_tags_no_lt (lit "rise")) in H
    by (apply (bool_decide_unpack _); by vm_compute).
  exact H.
Defined.

Lemma elem_of_join sep parts c :
  c ∈ join sep parts -> c ∈ sep \/ exists p, p ∈ parts /\ c ∈ p.
Proof.
  induction parts as [|p parts IH]; [by intros ?%elem_of_nil|].
  destruct parts as [|q parts].
  - intros H. right. exists p. split; [by left|done].
  - change (join sep (p :: q :: parts)) with (p ++ sep ++ join sep (q :: parts)).
    rewrite !elem_of_app. intros [H|[H|H]].
    + right. exists p. split; [by left|done].
    + by left.
    + destruct (IH H) as [?|(p' & Hp' & ?)]; [by left|].
      right. exists p'. split; [by right|done].
Qed.

Lemma join_words_spaces ws :
  Forall is_word ws ->
  Forall (fun c => is_space c = true -> c = SPACE) (join (lit " ") ws).
Proof.
  intros Hws. apply Forall_forall. intros c Hc Hsp.
  apply elem_of_join in Hc as [Hc|(w & Hw & Hc)].
  - by apply list_elem_of_singleton in Hc.
  - eapply Forall_forall in Hws; [|exact Hw]. destruct Hws as [_ Hall].
    eapply Forall_forall in Hall; [|exact Hc]. congruence.
Qed.

Lemma clean_html_single_spaced html5 text : single_spaced (clean_html html5 text).
Proof.
  destruct (clean_html_shape html5 text) as (Hl & Ht & Ha).
  repeat (split; [done|]).
  rewrite clean_html_unfold. apply join_words_spaces, split_words.
Qed.

Lemma single_spaced_no_newline s : single_spaced s -> no_newline s.
Proof.
  intros (_ & _ & _ & H) Hin. eapply Forall_forall in H; [|exact Hin].
  by specialize (H eq_refl).
Qed.

(** Joining the words of single-spaced text gives the text back. *)
Lemma join_split_from cur s :
  Forall (fun c => is_space c = false) cur ->
  (cur = [] -> leading_ws s = false) ->
  trailing_ws s = false -> adjacent_ws s = false ->
  Forall (fun c => is_space c = true -> c = SPACE) s ->
  join (lit " ") (split_from cur s) = cur ++ s.
Proof.
  revert cur. induction s as [|c r IH]; intros cur Hcur Hlead Htrail Hadj Hsp.
  - simpl. destruct cur; by rewrite ?app_nil_r.
  - apply Forall_cons in Hsp as [Hc Hsp]. simpl in Hadj.
    apply orb_false_elim in Hadj as [Hcr Hadj].
    assert (Htr : r <> [] -> trailing_ws r = false).
    { intros Hr. rewrite <- Htrail. unfold trailing_ws.
      destruct r as [|c' r']; [done|]. done. }
    simpl. destruct (is_space c) eqn:E.
    + specialize (Hc eq_refl). subst c.
      simpl in Hcr.
      assert (Hr : r <> []).
      { intros ->. unfold trailing_ws in Htrail. simpl in Htrail. done. }
      destruct cur as [|c0 cur]; [by specialize (Hlead eq_refl)|].
      assert (Hrest : join (lit " ") (split_from [] r) = r).
      { rewrite IH; auto. }
      destruct (split_from [] r) as [|w ws] eqn:Es.
      { simpl in Hrest. by subst r. }
      change (join (lit " ") ((c0 :: cur) :: w :: ws))
        with ((c0 :: cur) ++ lit " " ++ join (lit " ") (w :: ws)).
      by rewrite Hrest.
    + rewrite IH.
      * by rewrite <- app_assoc.
      * apply Forall_app. split; [done|]. by apply Forall_singleton.
      * intros Hnil. by destruct cur.
      * destruct r; [done|]. by apply Htr.
      * done.
      * done.
Qed.

(** Plain text passes unchanged: text without ['<'] and ['&'] whose only
    whitespace is single spaces between words is returned as it is. *)
Theorem clean_html_plain_text html5 text :
  (LT_SIGN ∉ text) -> (AMP ∉ text) -> single_spaced text ->
  clean_html html5 text = text.
Proof.
  intros Hlt Hamp (Hl & Ht & Ha & Hsp).
  rewrite clean_html_unfold, strip_tags_no_lt, unescape_no_amp by done.
  unfold split. by rewrite join_split_from.
Qed.

Lemma single_spaced_dec s :
  negb (leading_ws s) && negb (trailing_ws s) && negb (adjacent_ws s)
  && forallb (fun c => negb (is_space c) || (c =? SPACE)) s = true ->
  single_spaced s.
Proof.
  intros H. repeat (apply andb_prop in H as [H ?]).
  repeat split; try by apply negb_true_iff.
  apply Forall_forall. intros c Hc Hsp.
  match goal with Hf : forallb _ _ = true |- _ => rewrite forallb_forall in Hf;
    apply list_elem_of_In in Hc; specialize (Hf c Hc); rewrite Hsp in Hf;
    by apply N.eqb_eq in Hf end.
Qed.

Lemma clean_html_plain_text_witness :
  let text := lit "FTSE 100 closes higher" in
  (LT_SIGN ∉ text) /\ (AMP ∉ text) /\ single_spaced text
  /\ clean_html html5_excerpt text = text.
Proof.
  cbv zeta.
  assert (H1 : LT_SIGN ∉ lit "FTSE 100 closes higher")
    by (apply (bool_decide_unpack _); by vm_compute).
  assert (H2 : AMP ∉ lit "FTSE 100 closes higher")
    by (apply (bool_decide_unpack _); by vm_compute).
  assert (H3 : single_spaced (lit "FTSE 100 closes higher"))
    by (apply single_spaced_dec; by vm_compute).
  repeat (split; [done|]).
  exact (clean_html_plain_text html5_excerpt _ H1 H2 H3).
Defined.

(** ** More on the articles *)

Lemma leading_ws_app a b :
  leading_ws (a ++ b) = match a with [] => leading_ws b | _ => leading_ws a end.
Proof. by destruct a. Qed.

Lemma adjacent_ws_app a b :
  adjacent_ws a = false -> leading_ws b = false -> adjacent_ws b = false ->
  adjacent_ws (a ++ b) = false.
Proof.
  intros Ha Hb1 Hb2. induction a as [|c a IH]; [done|].
  simpl in *. apply orb_false_elim in Ha as [Hc Ha].
  rewrite IH by done. rewrite orb_false_r, leading_ws_app.
  destruct a; [by rewrite Hb1, andb_false_r|done].
Qed.

Lemma adjacent_ws_take n s : adjacent_ws s = false -> adjacent_ws (take n s) = false.
Proof.
  revert n. induction s as [|c r IH]; intros [|n] H; try done.
  simpl in *. apply orb_false_elim in H as [Hc Hr].
  rewrite IH by done. rewrite orb_false_r.
  destruct (is_space c); [|done]. simpl in *.
  destruct r, n; done.
Qed.

Lemma limit_summary_single_spaced s : single_spaced s -> single_spaced (limit_summary s).
Proof.
  intros (Hl & Ht & Ha & Hsp). unfold limit_summary.
  destruct (300 <? length s)%nat eqn:E; [|done].
  apply Nat.ltb_lt in E. split; [|split; [|split]].
  - rewrite leading_ws_app. destruct s as [|c r]; [simpl in E; lia|]. done.
  - by rewrite trailing_ws_app.
  - apply adjacent_ws_app; [by apply adjacent_ws_take|done|done].
  - apply Forall_app. split; [by apply Forall_take|].
    apply Forall_forall. intros c Hc Hspc.
    apply list_elem_of_In in Hc. simpl in Hc.
    destruct Hc as [<-|[<-|[<-|[]]]]; done.
Qed.

Lemma build_article_clean env entry :
  single_spaced (title (build_article env entry))
  /\ single_spaced (summary (build_article env entry))
  /\ no_newline (title (build_article env entry))
  /\ no_newline (summary (build_article env entry))
  /\ (length (summary (build_article env entry)) <= 300)%nat.
Proof.
  assert (Ht : single_spaced (title (build_article env entry)))
    by apply clean_html_single_spaced.
  assert (Hs : single_spaced (summary (build_article env entry)))
    by apply limit_summary_single_spaced, clean_html_single_spaced.
  split; [done|]. split; [done|].
  split; [by apply single_spaced_no_newline|].
  split; [by apply single_spaced_no_newline|]. apply limit_summary_length.
Qed.

(** Whatever the entry holds, the stored title and summary are clean
    one-line text: no newline, no leading or trailing whitespace, no two
    whitespace characters in a row, single spaces as the only whitespace;
    and the summary has at most 300 characters. *)
Theorem build_article_text_clean env entry :
  let a := build_article env entry in
  single_spaced (title a) /\ single_spaced (summary a)
  /\ no_newline (title a) /\ no_newline (summary a)
  /\ (length (summary a) <= 300)%nat.
Proof. apply build_article_clean. Qed.

Example build_article_messy_entry :
  let entry := {| entry_title := Some (lit "  <h1>Bank
 of   England</h1> ");
                  entry_summary := None;
                  entry_description := Some (lit "<p>Rates&nbsp;held
<br/>at 4%</p>");
                  entry_link := None; entry_published := None;
                  entry_author := None; entry_tags := None |} in
  let a := build_article (sample_env (Return sample_feed)) entry in
  title a = lit "Bank of England" /\ summary a = lit "Rates held at 4%".
Proof. by vm_compute. Qed.

(** ** More on the fetcher *)

Lemma extract_articles_untouched env self feed_name max_articles w :
  files (snd (extract_articles env self feed_name max_articles w)) = files w
  /\ dirs (snd (extract_articles env self feed_name max_articles w)) = dirs w
  /\ requests (snd (extract_articles env self feed_name max_articles w))
     = requests w ++ requested self feed_name
  /\ exists printed,
       stdout (snd (extract_articles env self feed_name max_articles w))
       = stdout w ++ printed.
Proof.
  unfold extract_articles, requested.
  destruct (rss_feeds self !! feed_name) as [[|c url]|];
    try (simpl; rewrite app_nil_r; repeat split; exists []; by rewrite app_nil_r).
  run_m. destruct (feedparser_parse env (c :: url)) as [parsed|e]; simpl.
  - destruct (bozo parsed); simpl; destruct (entries parsed); simpl;
      repeat split; rewrite <- ?app_assoc; by eexists.
  - destruct (is_Exception e); simpl; repeat split;
      rewrite <- ?app_assoc; by eexists.
Qed.

(** The fetch never touches the file system, whatever its outcome; it
    hands the parser the URL of the label once, or nothing for an unknown
    label; and it only adds to what was printed. *)
Theorem extract_articles_frame env self feed_name max_articles w :
  let w' := snd (extract_articles env self feed_name max_articles w) in
  files w' = files w /\ dirs w' = dirs w
  /\ requests w' = requests w ++ requested self feed_name
  /\ exists printed, stdout w' = stdout w ++ printed.
Proof. apply extract_articles_untouched. Qed.


(** A feed that the parser flags as malformed is used all the same: the
    result is that of the same feed without the flag, and the only
    difference is a warning printed after the first line. *)
Theorem extract_articles_bozo env self feed_name max_articles w url parsed e :
  rss_feeds self !! feed_name = Some url -> url <> [] ->
  feedparser_parse env url = Return parsed -> bozo parsed = Some e ->
  let run := extract_articles env self feed_name max_articles w in
  let run0 := extract_articles (with_feed env (Return (clear_bozo parsed)))
                self feed_name max_articles w in
  fst run = fst run0
  /\ exists rest,
       stdout (snd run0)
       = stdout w ++ [lit "Fetching content from: " ++ url] ++ rest
       /\ stdout (snd run)
          = stdout w ++ [lit "Fetching content from: " ++ url]
            ++ [lit "Warning: Feed parsing issues - " ++ exn_str e] ++ rest.
Proof.
  intros H Hurl Hparse Hbozo. cbv zeta. unfold extract_articles. rewrite H.
  destruct url as [|u url]; [done|]. run_m. rewrite Hparse, Hbozo. simpl.
  destruct (entries parsed); simpl; (split; [done|]);
    eexists; rewrite <- !app_assoc; split; reflexivity.
Qed.

Lemma extract_articles_bozo_witness :
  let parsed := {| bozo := Some (FeedError (lit "not well-formed"));
                   entries := entries sample_feed; feed := no_meta |} in
  let env := sample_env (Return parsed) in
  rss_feeds CityAMExtractor_new !! lit "news" = Some NEWS_URL /\ NEWS_URL <> []
  /\ feedparser_parse env NEWS_URL = Return parsed
  /\ bozo parsed = Some (FeedError (lit "not well-formed"))
  /\ fst (extract_articles env CityAMExtractor_new (lit "news") 5 empty_world)
     = Return (Some sample_result)
  /\ stdout (snd (extract_articles env CityAMExtractor_new (lit "news") 5
                    empty_world))
     = [lit "Fetching content from: https://www.cityam.com/news/rss";
        lit "Warning: Feed parsing issues - not well-formed";
        lit "Successfully extracted 5 articles"].
Proof.
  cbv zeta.
  assert (H1 : rss_feeds CityAMExtractor_new !! lit "news" = Some NEWS_URL)
    by by vm_compute.
  assert (H2 : NEWS_URL <> []) by by vm_compute.
  split; [exact H1|]. split; [exact H2|]. split; [reflexivity|].
  split; [reflexivity|].
  destruct (extract_articles_bozo
              (sample_env (Return {| bozo := Some (FeedError (lit "not well-formed"));
                                     entries := entries sample_feed;
                                     feed := no_meta |}))
              CityAMExtractor_new (lit "news") 5 empty_world NEWS_URL _ _
              H1 H2 eq_refl eq_refl) as (Hres & rest & Hout0 & Hout).
  split.
  - rewrite Hres. by vm_compute.
  - by vm_compute.
Defined.

(** A returned result for a positive maximum holds between one and
    [max_articles] articles, each with clean text and a summary of at
    most 300 characters. *)
Theorem extract_articles_result_bounds env self feed_name max_articles w data w' :
  (0 < max_articles)%Z ->
  extract_articles env self feed_name max_articles w = (Return (Some data), w') ->
  (1 <= length (articles data) <= Z.to_nat max_articles)%nat
  /\ Forall (fun a => single_spaced (title a) /\ single_spaced (summary a)
                      /\ (length (summary a) <= 300)%nat) (articles data).
Proof.
  intros HN (url & parsed & _ & _ & Hent & ->)%extract_articles_some.
  rewrite select_articles_map. unfold slice_to.
  destruct (0 <=? max_articles)%Z eqn:E; [|apply Z.leb_gt in E; lia].
  split.
  - rewrite length_fmap, length_take.
    destruct (entries parsed); [done|]. simpl. lia.
  - apply Forall_fmap, Forall_forall. intros entry _.
    pose proof (build_article_clean env entry) as (H1 & H2 & _ & _ & H3).
    done.
Qed.

Lemma extract_articles_result_bounds_witness :
  let env := sample_env (Return sample_feed) in
  (0 < 5)%Z
  /\ extract_articles env CityAMExtractor_new (lit "news") 5 empty_world
     = (Return (Some sample_result),
        snd (extract_articles env CityAMExtractor_new (lit "news") 5 empty_world))
  /\ (1 <= length (articles sample_result) <= 5)%nat
  /\ Forall (fun a => single_spaced (title a) /\ single_spaced (summary a)
                      /\ (length (summary a) <= 300)%nat) (articles sample_result).
Proof.
  cbv zeta.
  assert (H1 : (0 < 5)%Z) by lia.
  assert (H2 : extract_articles (sample_env (Return sample_feed)) CityAMExtractor_new
                 (lit "news") 5 empty_world
               = (Return (Some sample_result),
                  snd (extract_articles (sample_env (Return sample_feed))
                         CityAMExtractor_new (lit "news") 5 empty_world)))
    by by vm_compute.
  split; [exact H1|]. split; [exact H2|].
  exact (extract_articles_result_bounds _ _ _ _ _ _ _ H1 H2).
Defined.




Example extract_articles_zero_max :
  fst (extract_articles (sample_env (Return sample_feed)) CityAMExtractor_new
         (lit "news") 0 empty_world)
  = Return (Some no_result).
Proof. by vm_compute. Qed.

(** ** More on the renderer *)

Lemma occurs_in_refl s : occurs_in s s.
Proof. exists [], []. by rewrite app_nil_r. Qed.

Lemma occurs_in_app_l part a b : occurs_in part a -> occurs_in part (a ++ b).
Proof.
  intros (pre & suf & ->). exists pre, (suf ++ b). by rewrite <- !app_assoc.
Qed.

Lemma occurs_in_app_r part a b : occurs_in part b -> occurs_in part (a ++ b).
Proof.
  intros (pre & suf & ->). exists (a ++ pre), suf. by rewrite <- !app_assoc.
Qed.

Lemma occurs_in_concat part x l :
  x ∈ l -> occurs_in part x -> occurs_in part (concat l).
Proof.
  intros Hx Hp. induction l as [|y l IH]; [by apply elem_of_nil in Hx|].
  simpl. apply elem_of_cons in Hx as [->|Hx].
  - by apply occurs_in_app_l.
  - by apply occurs_in_app_r, IH.
Qed.

Lemma post_section_mentions i a :
  occurs_in (title a) (post_section i a)
  /\ occurs_in (summary a) (post_section i a)
  /\ occurs_in (categories_text a) (post_section i a)
  /\ occurs_in (lit "(" ++ link a ++ lit ")") (post_section i a).
Proof.
  unfold post_section. repeat split.
  - do 3 apply occurs_in_app_r. apply occurs_in_app_l, occurs_in_refl.
  - do 5 apply occurs_in_app_r. apply occurs_in_app_l, occurs_in_refl.
  - do 7 apply occurs_in_app_r. apply occurs_in_app_l, occurs_in_refl.
  - do 8 apply occurs_in_app_r.
    exists (lit "

**[Read the full article at City A.M.]"), (lit "**

---

").
    rewrite <- !app_assoc. by vm_compute.
Qed.

(** Every article of a non-empty result is in the post with its title,
    its summary, its categories (or "Business News" when it has none) and
    its link in parentheses. *)
Theorem generate_blog_post_mentions env self data blog_name author_name a :
  a ∈ articles data ->
  let post := generate_blog_post env self (Some data) blog_name author_name in
  occurs_in (title a) post /\ occurs_in (summary a) post
  /\ occurs_in (categories_text a) post
  /\ occurs_in (lit "(" ++ link a ++ lit ")") post.
Proof.
  intros Ha. cbv zeta.
  assert (Hne : articles data <> []) by (intros E; rewrite E in Ha; by inversion Ha).
  rewrite generate_blog_post_parts by done.
  apply list_elem_of_lookup in Ha as [i Hi].
  assert (Hsec : post_section (S i) a ∈ post_sections (articles data)).
  { apply list_elem_of_lookup. exists i. by rewrite post_sections_lookup, Hi. }
  destruct (post_section_mentions (S i) a) as (H1 & H2 & H3 & H4).
  repeat split; apply occurs_in_app_r, occurs_in_app_l;
    by apply (occurs_in_concat _ _ _ Hsec).
Qed.

Lemma generate_blog_post_mentions_witness :
  let env := sample_env (Return sample_feed) in
  let a := build_article env (sample_entry "3") in
  let post := generate_blog_post env CityAMExtractor_new (Some sample_result)
                (lit "Business News Blog") (lit "Automated Summary") in
  a ∈ articles sample_result
  /\ occurs_in (lit "Story 3") post
  /\ occurs_in (lit "FTSE 100 & pound move on story 3") post
  /\ occurs_in (lit "Markets, Economics") post
  /\ occurs_in (lit "(https://www.cityam.com/story-3/)") post.
Proof.
  cbv zeta.
  assert (Ha : build_article (sample_env (Return sample_feed)) (sample_entry "3")
               ∈ articles sample_result).
  { apply list_elem_of_lookup. exists 2%nat. by vm_compute. }
  split; [exact Ha|].
  exact (generate_blog_post_mentions (sample_env (Return sample_feed))
           CityAMExtractor_new sample_result (lit "Business News Blog")
           (lit "Automated Summary") _ Ha).
Defined.

Lemma post_section_printed i a b :
  printed_fields a = printed_fields b -> post_section i a = post_section i b.
Proof.
  unfold printed_fields, post_section, categories_text.
  intros [= -> -> -> ->]. done.
Qed.

Lemma post_sections_printed arts1 arts2 start :
  printed_fields <$> arts1 = printed_fields <$> arts2 ->
  (fun '(i, article) => post_section i article) <$> enumerate start arts1
  = (fun '(i, article) => post_section i article) <$> enumerate start arts2.
Proof.
  revert arts2 start. induction arts1 as [|a arts1 IH]; intros [|b arts2] start H;
    try done.
  rewrite !fmap_cons in H.
  assert (Hab : printed_fields a = printed_fields b) by congruence.
  assert (Hrest : printed_fields <$> arts1 = printed_fields <$> arts2)
    by congruence.
  cbn [enumerate]. rewrite !fmap_cons. f_equal.
  - by apply post_section_printed.
  - by apply IH.
Qed.

(** The post shows nothing of an article but its title, summary, link and
    categories, and nothing of the feed's own title, description and date:
    results that agree on those four fields of their articles render to
    the same post. *)
Theorem generate_blog_post_printed_fields env self data1 data2 blog_name
    author_name :
  printed_fields <$> articles data1 = printed_fields <$> articles data2 ->
  generate_blog_post env self (Some data1) blog_name author_name
  = generate_blog_post env self (Some data2) blog_name author_name.
Proof.
  intros H. unfold generate_blog_post.
  destruct (articles data1) as [|a1 arts1] eqn:E1,
           (articles data2) as [|a2 arts2] eqn:E2; try done.
  rewrite !fold_sections. f_equal. f_equal. f_equal.
  by apply post_sections_printed.
Qed.

Lemma generate_blog_post_printed_fields_witness :
  let env := sample_env (Return sample_feed) in
  let other := {| feed_title := lit "Another title";
                  feed_description := lit "desc"; last_updated := lit "today";
                  articles := (fun a => {| title := title a; link := link a;
                                           summary := summary a;
                                           published := [];
                                           author := lit "A. Reporter";
                                           categories := categories a |})
                              <$> articles sample_result |} in
  printed_fields <$> articles sample_result = printed_fields <$> articles other
  /\ generate_blog_post env CityAMExtractor_new (Some sample_result)
       (lit "Business News Blog") (lit "Automated Summary")
     = generate_blog_post env CityAMExtractor_new (Some other)
         (lit "Business News Blog") (lit "Automated Summary").
Proof.
  cbv zeta.
  match goal with |- ?A /\ _ => assert (H : A) by by vm_compute end.
  split; [exact H|].
  exact (generate_blog_post_printed_fields (sample_env (Return sample_feed))
           CityAMExtractor_new sample_result _ (lit "Business News Blog")
           (lit "Automated Summary") H).
Defined.

(** ** More on the writer *)

Lemma os_path_basename_plain name : SLASH ∉ name -> os_path_basename name = name.
Proof.
  destruct name as [|c r]; [done|]. intros H. cbn [os_path_basename].
  by rewrite bool_decide_eq_false_2.
Qed.

(** The last component of a path is what follows its last ['/']. *)
Lemma os_path_basename_slash dir name :
  SLASH ∉ name -> os_path_basename (dir ++ SLASH :: name) = name.
Proof.
  intros Hname. induction dir as [|c dir IH].
  - cbn [app os_path_basename]. rewrite bool_decide_eq_true_2 by (by left).
    by apply os_path_basename_plain.
  - cbn [app os_path_basename]. rewrite bool_decide_eq_true_2; [done|].
    right. apply elem_of_app. right. by left.
Qed.

Lemma os_path_join_relative dir name :
  dir <> [] -> last dir <> Some SLASH -> head name <> Some SLASH ->
  os_path_join dir name = dir ++ SLASH :: name.
Proof.
  intros Hdir Hlast Hname. unfold os_path_join.
  rewrite bool_decide_eq_false_2 by done.
  rewrite (bool_decide_eq_false_2 (dir = [])) by done.
  by rewrite (bool_decide_eq_false_2 (last dir = Some SLASH)).
Qed.

Lemma save_blog_post_named_run env self content name w :
  name <> [] ->
  open_error env (os_path_join (output_dir self) name) = None ->
  save_blog_post env self content (Some name) w
  = (Return (os_path_join (output_dir self) name),
     {| files := <[os_path_join (output_dir self) name := content]> (files w);
        dirs := dirs w;
        stdout := stdout w ++ [lit "Blog post saved to: "
                               ++ os_path_join (output_dir self) name];
        requests := requests w |}).
Proof.
  intros Hname H. unfold save_blog_post. destruct name as [|c name]; [done|].
  erewrite bind_return by (by apply write_file_ok). done.
Qed.

(** With an explicit filename the content goes to that name: a relative
    name lands under the output directory and its last component is the
    name; a name that starts with ['/'] is used as it is, outside the
    output directory; the empty name counts as no name. *)
Theorem save_blog_post_named env self content name w :
  (name <> [] ->
   open_error env (os_path_join (output_dir self) name) = None ->
   fst (save_blog_post env self content (Some name) w)
   = Return (os_path_join (output_dir self) name)
   /\ files (snd (save_blog_post env self content (Some name) w))
        !! os_path_join (output_dir self) name = Some content
   /\ (output_dir self <> [] -> last (output_dir self) <> Some SLASH ->
       head name <> Some SLASH ->
       os_path_join (output_dir self) name = output_dir self ++ SLASH :: name
       /\ ((SLASH ∉ name) ->
           os_path_basename (os_path_join (output_dir self) name) = name))
   /\ (head name = Some SLASH -> os_path_join (output_dir self) name = name))
  /\ save_blog_post env self content (Some []) w
     = save_blog_post env self content None w.
Proof.
  split; [|done]. intros Hname Hopen.
  rewrite save_blog_post_named_run by done. cbn [fst snd files].
  split; [done|]. split; [apply lookup_insert_eq|]. split.
  - intros Hdir Hlast Hrel.
    rewrite os_path_join_relative by done. split; [done|].
    apply os_path_basename_slash.
  - intros Habs. unfold os_path_join. by rewrite bool_decide_eq_true_2.
Qed.

Lemma save_blog_post_named_witness :
  let env := sample_env (Return sample_feed) in
  let self := CityAMExtractor_new in
  (lit "weekly.md" <> []
   /\ open_error env (lit "summaries/weekly.md") = None
   /\ fst (save_blog_post env self (lit "post") (Some (lit "weekly.md")) empty_world)
      = Return (lit "summaries/weekly.md")
   /\ output_dir self <> [] /\ last (output_dir self) <> Some SLASH
   /\ head (lit "weekly.md") <> Some SLASH /\ (SLASH ∉ lit "weekly.md")
   /\ os_path_basename (lit "summaries/weekly.md") = lit "weekly.md")
  /\ (lit "/tmp/out.md" <> [] /\ open_error env (lit "/tmp/out.md") = None
      /\ head (lit "/tmp/out.md") = Some SLASH
      /\ fst (save_blog_post env self (lit "post") (Some (lit "/tmp/out.md"))
                empty_world) = Return (lit "/tmp/out.md")).
Proof.
  cbv zeta. split.
  - assert (H1 : lit "weekly.md" <> []) by by vm_compute.
    assert (H2 : output_dir CityAMExtractor_new <> []) by by vm_compute.
    assert (H3 : last (output_dir CityAMExtractor_new) <> Some SLASH) by by vm_compute.
    assert (H4 : head (lit "weekly.md") <> Some SLASH) by by vm_compute.
    assert (H5 : SLASH ∉ lit "weekly.md")
      by (apply (bool_decide_unpack _); by vm_compute).
    destruct (proj1 (save_blog_post_named (sample_env (Return sample_feed))
                       CityAMExtractor_new (lit "post") (lit "weekly.md")
                       empty_world) H1 eq_refl) as (Hr & _ & Hrel & _).
    destruct (Hrel H2 H3 H4) as [_ Hbase].
    split; [exact H1|]. split; [reflexivity|]. split; [exact Hr|].
    split; [exact H2|]. split; [exact H3|]. split; [exact H4|].
    split; [exact H5|]. exact (Hbase H5).
  - assert (H1 : lit "/tmp/out.md" <> []) by by vm_compute.
    destruct (proj1 (save_blog_post_named (sample_env (Return sample_feed))
                       CityAMExtractor_new (lit "post") (lit "/tmp/out.md")
                       empty_world) H1 eq_refl) as (Hr & _ & _ & Habs).
    split; [exact H1|]. split; [reflexivity|]. split; [reflexivity|].
    rewrite Hr, (Habs eq_refl). reflexivity.
Defined.

(** Saving twice on the same day overwrites: both calls return the same
    path, the file holds the second content, and the files are those of
    before with that one path set. *)
Theorem save_blog_post_twice env self content1 content2 w :
  let path := os_path_join (output_dir self)
                (lit "cityam_summary_" ++ strftime_Ymd (now env) ++ lit ".md") in
  open_error env path = None ->
  let w1 := snd (save_blog_post env self content1 None w) in
  fst (save_blog_post env self content1 None w) = Return path
  /\ fst (save_blog_post env self content2 None w1) = Return path
  /\ files (snd (save_blog_post env self content2 None w1))
     = <[path := content2]> (files w).
Proof.
  intros path Hopen w1. unfold w1, path.
  rewrite !save_blog_post_run by done. cbn [fst snd files].
  split; [done|]. split; [done|]. apply insert_insert_eq.
Qed.

Lemma save_blog_post_twice_witness :
  let env := sample_env (Return sample_feed) in
  let path := lit "summaries/cityam_summary_2025-11-05.md" in
  let w1 := snd (save_blog_post env CityAMExtractor_new (lit "first") None
                   empty_world) in
  open_error env path = None
  /\ fst (save_blog_post env CityAMExtractor_new (lit "second") None w1)
     = Return path
  /\ files (snd (save_blog_post env CityAMExtractor_new (lit "second") None w1))
     = <[path := lit "second"]> ∅.
Proof.
  cbv zeta. split; [reflexivity|].
  destruct (save_blog_post_twice (sample_env (Return sample_feed))
              CityAMExtractor_new (lit "first") (lit "second") empty_world eq_refl)
    as (_ & H2 & H3).
  split; [exact H2|exact H3].
Defined.

Lemma zero_pad_digits width n : Forall (fun c => is_digit c = true) (zero_pad width n).
Proof.
  unfold zero_pad. apply Forall_app. split; [|apply str_of_nat_digits].
  apply Forall_forall. by intros c [-> _]%elem_of_replicate.
Qed.

Lemma strftime_Ymd_no_slash d : SLASH ∉ strftime_Ymd d.
Proof.
  unfold strftime_Ymd. rewrite !elem_of_app.
  assert (Hz : forall width n, SLASH ∉ zero_pad width n).
  { intros width n Hin. pose proof (zero_pad_digits width n) as H.
    eapply Forall_forall in H; [|exact Hin]. done. }
  intros [H|[H|[H|[H|H]]]]; try (by eapply Hz);
    by apply list_elem_of_singleton in H.
Qed.

Lemma post_path_basename env :
  os_path_basename (post_path env)
  = lit "cityam_summary_" ++ strftime_Ymd (now env) ++ lit ".md".
Proof.
  change (post_path env)
    with (lit "summaries" ++ SLASH :: lit "cityam_summary_"
          ++ strftime_Ymd (now env) ++ lit ".md").
  apply os_path_basename_slash. rewrite !elem_of_app.
  intros [H|[H|H]]; [|by apply strftime_Ymd_no_slash in H|];
    revert H; apply (bool_decide_unpack _); by vm_compute.
Qed.

Lemma readme_content_link date_str new_filename :
  occurs_in (lit "](summaries/" ++ os_path_basename new_filename ++ lit ")")
    (readme_content date_str new_filename).
Proof.
  unfold readme_content.
  exists (lit "# Daily City A.M. Business News Summaries

This repository automatically generates daily business news summaries from City A.M.'s RSS feed.

## Latest Summary
" ++ [128240] ++ lit " **[" ++ date_str ++ lit " Summary"), (lit "**

## About
- **Source**: [City A.M.](https://www.cityam.com) - London's leading business newspaper
- **Update Frequency**: Daily at 8:00 AM UTC
- **Content**: Top 5 business stories with summaries and links to full articles
- **Legal**: All content properly attributed with links to original sources

## Archive
All daily summaries are stored in the [`summaries/`](summaries/) directory.

## How It Works
This repository uses GitHub Actions to automatically:
1. Fetch the latest articles from City A.M.'s RSS feed
2. Generate formatted summaries with proper attribution
3. Commit and push the new content daily

---
*Automated by GitHub Actions | Content " ++ [169] ++ lit " City A.M.*
").
  rewrite <- !app_assoc. vm_compute. reflexivity.
Qed.

(** The index is written anew each time: whatever [README.md] held, it
    now holds the fixed text with the current date and a link to
    [summaries/<last component of the given path>]; no other file
    changes; and only the last component of the path matters. *)
Theorem update_index_regenerates env new_filename w :
  open_error env index_path = None ->
  let w' := snd (update_index env new_filename w) in
  fst (update_index env new_filename w) = Return tt
  /\ files w' !! index_path
     = Some (readme_content (strftime_Ymd (now env)) new_filename)
  /\ (forall path, path <> index_path -> files w' !! path = files w !! path)
  /\ occurs_in (lit "](summaries/" ++ os_path_basename new_filename ++ lit ")")
       (readme_content (strftime_Ymd (now env)) new_filename)
  /\ (forall other,
        os_path_basename other = os_path_basename new_filename ->
        readme_content (strftime_Ymd (now env)) other
        = readme_content (strftime_Ymd (now env)) new_filename).
Proof.
  intros Hopen. cbv zeta. rewrite update_index_run by done. cbn [fst snd files].
  split; [done|]. split; [apply lookup_insert_eq|]. split.
  - intros path Hp. by rewrite lookup_insert_ne.
  - split; [apply readme_content_link|].
    intros other Hb. unfold readme_content. by rewrite Hb.
Qed.

Lemma update_index_regenerates_witness :
  let env := sample_env (Return sample_feed) in
  let w := put empty_world index_path (lit "an older index") in
  open_error env index_path = None
  /\ files (snd (update_index env (lit "out/2025/post.md") w)) !! index_path
     = Some (readme_content (lit "2025-11-05") (lit "post.md"))
  /\ occurs_in (lit "](summaries/post.md)")
       (readme_content (lit "2025-11-05") (lit "out/2025/post.md")).
Proof.
  cbv zeta.
  destruct (update_index_regenerates (sample_env (Return sample_feed))
              (lit "out/2025/post.md")
              (put empty_world index_path (lit "an older index")) eq_refl)
    as (_ & Hfile & _ & Hlink & _).
  split; [reflexivity|]. split.
  - rewrite Hfile. by vm_compute.
  - exact Hlink.
Defined.

(** Saving without a name and then indexing the returned path: the index
    links the very path the post was saved under, and both files are in
    place. *)
Theorem index_links_saved_post env self content w :
  output_dir self = lit "summaries" ->
  open_error env (post_path env) = None -> open_error env index_path = None ->
  exists w1 w2 readme,
    save_blog_post env self content None w = (Return (post_path env), w1)
    /\ update_index env (post_path env) w1 = (Return tt, w2)
    /\ files w2 !! post_path env = Some content
    /\ files w2 !! index_path = Some readme
    /\ occurs_in (lit "](" ++ post_path env ++ lit ")") readme.
Proof.
  intros Hdir Hpost Hindex.
  assert (Hpath : os_path_join (output_dir self)
                    (lit "cityam_summary_" ++ strftime_Ymd (now env) ++ lit ".md")
                  = post_path env) by (by rewrite Hdir).
  eexists _, _, _. split; [|split; [|split; [|split]]].
  - rewrite save_blog_post_run by (by rewrite Hpath). by rewrite Hpath.
  - by apply update_index_run.
  - cbn [files]. rewrite lookup_insert_ne by done. apply lookup_insert_eq.
  - cbn [files]. apply lookup_insert_eq.
  - pose proof (readme_content_link (strftime_Ymd (now env)) (post_path env)) as H.
    rewrite post_path_basename in H.
    replace (lit "](" ++ post_path env ++ lit ")")
      with (lit "](summaries/" ++ (lit "cityam_summary_" ++ strftime_Ymd (now env)
                                   ++ lit ".md") ++ lit ")"); [exact H|].
    unfold post_path. rewrite <- !app_assoc. reflexivity.
Qed.

Lemma index_links_saved_post_witness :
  let env := sample_env (Return sample_feed) in
  output_dir CityAMExtractor_new = lit "summaries"
  /\ open_error env (post_path env) = None /\ open_error env index_path = None
  /\ exists w1 w2 readme,
       save_blog_post env CityAMExtractor_new (lit "post") None empty_world
       = (Return (lit "summaries/cityam_summary_2025-11-05.md"), w1)
       /\ update_index env (lit "summaries/cityam_summary_2025-11-05.md") w1
          = (Return tt, w2)
       /\ files w2 !! lit "summaries/cityam_summary_2025-11-05.md"
          = Some (lit "post")
       /\ files w2 !! index_path = Some readme
       /\ occurs_in (lit "](summaries/cityam_summary_2025-11-05.md)") readme.
Proof.
  cbv zeta. split; [reflexivity|]. split; [reflexivity|]. split; [reflexivity|].
  exact (index_links_saved_post (sample_env (Return sample_feed))
           CityAMExtractor_new (lit "post") empty_world eq_refl eq_refl eq_refl).
Defined.

(** ** More on the run *)

(** The run, once the fetch is done. *)
Lemma run_after_fetch env w :
  run_daily_extraction env CityAMExtractor_new w
  = match extract_articles env CityAMExtractor_new (lit "news") 5 (after_banner w) with
    | (Raise e, w2) => handled e w2
    | (Return None, w2) =>
        (Raise (SystemExit 1),
         say w2 ([10060] ++ lit " Failed to extract content from RSS feed"))
    | (Return (Some data), w2) =>
        match open_error env (post_path env) with
        | Some e => handled e w2
        | None =>
            let w3 := say (put w2 (post_path env) (daily_post env data))
                        (lit "Blog post saved to: " ++ post_path env) in
            match open_error env index_path with
            | Some e => handled e w3
            | None =>
                (Return true,
                 say (say (put w3 index_path
                             (readme_content (strftime_Ymd (now env)) (post_path env)))
                        (lit "Updated README.md"))
                   ([9989] ++ lit " Daily extraction completed successfully!"))
            end
        end
    end.
Proof.
  unfold run_daily_extraction. rewrite !print_then.
  change (with_stdout _ _) with (after_banner w).
  destruct (extract_articles env CityAMExtractor_new (lit "news") 5 (after_banner w))
    as [[[data|]|e] w2] eqn:Hex.
  - destruct (open_error env (post_path env)) as [e|] eqn:Hpost.
    + assert (Hsave : save_blog_post env CityAMExtractor_new (daily_post env data)
                        None w2 = (Raise e, w2)).
      { unfold save_blog_post. eapply bind_raise. unfold write_file.
        rewrite default_path. fold (post_path env). by rewrite Hpost. }
      unfold handled. destruct (is_Exception e) eqn:He.
      * erewrite try_except_caught; [|erewrite bind_return by exact Hex;
                                       cbv beta iota; eapply bind_raise; exact Hsave
                                     |exact He].
        by rewrite print_then.
      * eapply try_except_passed; [|exact He].
        erewrite bind_return by exact Hex. cbv beta iota.
        eapply bind_raise. exact Hsave.
    + assert (Hsave : save_blog_post env CityAMExtractor_new (daily_post env data)
                        None w2
                      = (Return (post_path env),
                         say (put w2 (post_path env) (daily_post env data))
                           (lit "Blog post saved to: " ++ post_path env))).
      { rewrite save_blog_post_run; [done|]. rewrite default_path. exact Hpost. }
      cbv zeta. destruct (open_error env index_path) as [e|] eqn:Hindex.
      * assert (Hupd : update_index env (post_path env)
                         (say (put w2 (post_path env) (daily_post env data))
                            (lit "Blog post saved to: " ++ post_path env))
                       = (Raise e, say (put w2 (post_path env) (daily_post env data))
                            (lit "Blog post saved to: " ++ post_path env))).
        { unfold update_index. eapply bind_raise. unfold write_file.
          by rewrite Hindex. }
        unfold handled. destruct (is_Exception e) eqn:He.
        -- erewrite try_except_caught; [| |exact He].
           ++ by rewrite print_then.
           ++ erewrite bind_return by exact Hex. cbv beta iota.
              erewrite bind_return by exact Hsave.
              eapply bind_raise. exact Hupd.
        -- eapply try_except_passed; [|exact He].
           erewrite bind_return by exact Hex. cbv beta iota.
           erewrite bind_return by exact Hsave.
           eapply bind_raise. exact Hupd.
      * eapply try_except_return.
        erewrite bind_return by exact Hex. cbv beta iota.
        erewrite bind_return by exact Hsave.
        erewrite bind_return by (by apply update_index_run).
        rewrite print_then. done.
  - eapply try_except_passed; [|done].
    erewrite bind_return by exact Hex. cbv beta iota. by rewrite print_then.
  - unfold handled. destruct (is_Exception e) eqn:He.
    + erewrite try_except_caught; [|eapply bind_raise; exact Hex|exact He].
      by rewrite print_then.
    + eapply try_except_passed; [|exact He]. eapply bind_raise. exact Hex.
Qed.

(** The fetch of the news feed by its outcome. *)
Lemma extract_news_cases env w :
  let run := extract_articles env CityAMExtractor_new (lit "news") 5 w in
  files (snd run) = files w /\ dirs (snd run) = dirs w
  /\ requests (snd run) = requests w ++ [NEWS_URL]
  /\ match feedparser_parse env NEWS_URL with
     | Return parsed =>
         match entries parsed with
         | [] => fst run = Return None
         | _ => exists data, fst run = Return (Some data)
                             /\ articles data
                                = select_articles env (entries parsed) 5
         end
     | Raise e => if is_Exception e then fst run = Return None
                  else fst run = Raise e
     end.
Proof.
  cbv zeta.
  destruct (extract_articles_untouched env CityAMExtractor_new (lit "news") 5 w)
    as (Hf & Hd & Hr & _).
  split; [done|]. split; [done|]. split; [done|].
  unfold extract_articles.
  change (rss_feeds CityAMExtractor_new !! lit "news") with (Some NEWS_URL).
  cbv iota. change NEWS_URL with (104 :: drop 1 NEWS_URL) at 1. cbv iota.
  change (104 :: drop 1 NEWS_URL) with NEWS_URL.
  run_m. destruct (feedparser_parse env NEWS_URL) as [parsed|e]; simpl.
  - destruct (bozo parsed); simpl; destruct (entries parsed) eqn:E; simpl;
      try done; by eexists.
  - by destruct (is_Exception e).
Qed.

(** A run makes one request, for the news feed, whatever happens next;
    the feed labelled [business] is never fetched. *)
Theorem run_requests_news_once env w :
  requests (snd (run_daily_extraction env CityAMExtractor_new w))
  = requests w ++ [NEWS_URL]
  /\ requests (snd (main env w)) = requests w ++ [NEWS_URL].
Proof.
  assert (Hrun : forall w0,
    requests (snd (run_daily_extraction env CityAMExtractor_new w0))
    = requests w0 ++ [NEWS_URL]).
  { intros w0. rewrite run_after_fetch.
    destruct (extract_news_cases env (after_banner w0)) as (_ & _ & Hreq & _).
    destruct (extract_articles env CityAMExtractor_new (lit "news") 5 (after_banner w0))
      as [[[data|]|e] w2]; cbn [snd] in Hreq; unfold handled;
      repeat (match goal with
              | |- context [open_error ?a ?b] => destruct (open_error a b)
              | |- context [is_Exception ?a] => destruct (is_Exception a)
              end); exact Hreq. }
  split; [apply Hrun|].
  unfold main, CityAMExtractor_init, ensure_output_dir.
  destruct (path_exists w (output_dir CityAMExtractor_new)) eqn:Hdir.
  - erewrite bind_return; [apply Hrun|].
    erewrite bind_return; [done|]. by rewrite Hdir.
  - erewrite bind_return; [|erewrite bind_return; [done|]; by rewrite Hdir].
    by rewrite Hrun.
Qed.

(** The files after a run: a run that returns [True] has set the post and
    then the index and nothing else; any other run has changed nothing, or
    has set the post alone, and that only when the index could not be
    opened.  So the index is never written without its post. *)
Theorem run_files env w :
  let r := fst (run_daily_extraction env CityAMExtractor_new w) in
  let w' := snd (run_daily_extraction env CityAMExtractor_new w) in
  (r = Return true ->
   exists data,
     files w' = <[index_path := readme_content (strftime_Ymd (now env)) (post_path env)]>
                  (<[post_path env := daily_post env data]> (files w)))
  /\ (r <> Return true ->
      files w' = files w
      \/ exists data e,
           open_error env index_path = Some e
           /\ files w' = <[post_path env := daily_post env data]> (files w)).
Proof.
  cbv zeta. rewrite run_after_fetch.
  destruct (extract_news_cases env (after_banner w)) as (Hf & _ & _ & _).
  change (files (after_banner w)) with (files w) in Hf.
  destruct (extract_articles env CityAMExtractor_new (lit "news") 5 (after_banner w))
    as [[[data|]|e] w2]; cbn [snd] in Hf.
  - destruct (open_error env (post_path env)) as [e|].
    + unfold handled. destruct (is_Exception e); (split; [done|]); intros _; by left.
    + cbv zeta. destruct (open_error env index_path) as [e|].
      * unfold handled. destruct (is_Exception e); (split; [done|]); intros _;
          right; exists data, e; (split; [done|]); cbn [snd files say put with_stdout];
          by rewrite Hf.
      * split; [|done]. intros _. exists data.
        cbn [snd files say put with_stdout]. by rewrite Hf.
  - split; [done|]. intros _. by left.
  - unfold handled. destruct (is_Exception e); (split; [done|]); intros _; by left.
Qed.

Lemma run_files_witness :
  let env := refusing (sample_env (Return sample_feed)) index_path in
  let r := fst (run_daily_extraction env CityAMExtractor_new empty_world) in
  let w' := snd (run_daily_extraction env CityAMExtractor_new empty_world) in
  r <> Return true
  /\ r = Raise (SystemExit 1)
  /\ files w' = <[post_path env := daily_post env sample_result]> ∅
  /\ (fst (run_daily_extraction (sample_env (Return sample_feed))
             CityAMExtractor_new empty_world) = Return true
      /\ exists data,
           files (snd (run_daily_extraction (sample_env (Return sample_feed))
                         CityAMExtractor_new empty_world))
           = <[index_path := readme_content (lit "2025-11-05")
                               (lit "summaries/cityam_summary_2025-11-05.md")]>
               (<[lit "summaries/cityam_summary_2025-11-05.md"
                  := daily_post (sample_env (Return sample_feed)) data]> ∅)).
Proof.
  cbv zeta.
  assert (Hr : fst (run_daily_extraction
                      (refusing (sample_env (Return sample_feed)) index_path)
                      CityAMExtractor_new empty_world) = Raise (SystemExit 1))
    by by vm_compute.
  assert (Hne : fst (run_daily_extraction
                       (refusing (sample_env (Return sample_feed)) index_path)
                       CityAMExtractor_new empty_world) <> Return true)
    by (by rewrite Hr).
  split; [exact Hne|]. split; [exact Hr|]. split.
  - destruct (proj2 (run_files (refusing (sample_env (Return sample_feed)) index_path)
                       empty_world) Hne) as [H|(data & e & _ & H)].
    + exfalso. revert H. apply (bool_decide_unpack _). by vm_compute.
    + apply map_eq. intros p.
      destruct (decide (p = post_path
                  (refusing (sample_env (Return sample_feed)) index_path))) as [->|Hp].
      * rewrite lookup_insert_eq. by vm_compute.
      * rewrite lookup_insert_ne by done. rewrite H.
        by rewrite lookup_insert_ne.
  - assert (Hok : fst (run_daily_extraction (sample_env (Return sample_feed))
                         CityAMExtractor_new empty_world) = Return true)
      by by vm_compute.
    split; [exact Hok|].
    exact (proj1 (run_files (sample_env (Return sample_feed)) empty_world) Hok).
Defined.




Example run_without_network :
  let w := snd (main (sample_env (Raise (FeedError (lit "timed out")))) empty_world) in
  fst (main (sample_env (Raise (FeedError (lit "timed out")))) empty_world)
  = Raise (SystemExit 1)
  /\ files w = ∅
  /\ stdout w
     = banner ++ [lit "Fetching content from: https://www.cityam.com/news/rss";
                  lit "Error extracting from feed https://www.cityam.com/news/rss: timed out";
                  [10060] ++ lit " Failed to extract content from RSS feed"].
Proof. by vm_compute. Qed.

(** ** The output directory *)


Example output_dir_taken_by_a_file :
  let w := put empty_world (lit "summaries") (lit "not a directory") in
  snd (CityAMExtractor_init w) = w.
Proof. by vm_compute. Qed.
